(** * LocationInfo: call-site descriptors of log4cxx and their Java-compatible
      serialization (src/main/cpp/locationinfo.cpp)

    The development embeds the translation unit function by function:
    the [std::string] operations it calls ([basic_string]), the
    object-stream collaborator it writes to ([ObjectOutputStream]), the
    descriptor with its constructors, mutators and accessors, and
    [LocationInfo::write].  The statements of the specification are then
    proved, or refuted, against these definitions. *)

From Stdlib Require Import ZArith List Bool Arith Lia.
From Stdlib Require Import Strings.Ascii Strings.String Strings.Byte.
From Stdlib Require Import DecimalString.
Import ListNotations.

Open Scope string_scope.

(* ================================================================== *)
(** ** The [std::string] operations used by the unit *)
(* ================================================================== *)

Module basic_string.

  (** [std::string::npos] is [None]; a found position is [Some i]. *)
Definition size_type := option nat.
Definition npos : size_type := None.

  (** The first [n] characters, and what is left without them. *)
Fixpoint take (n : nat) (s : string) : string :=
    match n, s with
    | S k, String c r => String c (take k r)
    | _, _ => ""
    end.

Fixpoint drop (n : nat) (s : string) : string :=
    match n, s with
    | S k, String _ r => drop k r
    | _, _ => s
    end.

  (** [s.find(ch)]: index of the first [ch]. *)
Fixpoint find (ch : ascii) (s : string) : size_type :=
    match s with
    | "" => npos
    | String a r => if Ascii.eqb a ch then Some 0 else option_map S (find ch r)
    end.

  (** Does [str] occur in [s] starting at index [i]? *)
Definition occurs_at (str s : string) (i : nat) : bool :=
    String.prefix str (drop i s).

  (** The backward loop of [rfind]:
      [do { if (match at pos) return pos; } while (pos-- > 0); return npos;] *)
Fixpoint rscan (str s : string) (pos : nat) : size_type :=
    if occurs_at str s pos then Some pos
    else match pos with
         | 0 => npos
         | S p => rscan str s p
         end.

  (** [s.rfind(str, pos)]: start of the last occurrence of [str] that
      begins at or before [pos] ([pos = npos] by default). *)
Definition rfind (str s : string) (pos : size_type) : size_type :=
    let n := String.length str in
    let sz := String.length s in
    if (n <=? sz)%nat
    then rscan str s (match pos with
                      | None => sz - n
                      | Some p => Nat.min (sz - n) p
                      end)
    else npos.

  (** [s.find_last_of(ch)]: for a single character this is [rfind] of it. *)
Definition find_last_of (ch : ascii) (s : string) : size_type :=
    rfind (String ch "") s npos.

  (** [s.erase(index, count)]; [count] defaults to [npos] (erase to the
      end).  [std::out_of_range] is thrown for [index > size()]; every call
      of the unit passes an index obtained from a search of the same string
      (see [find_lt], [rfind_le]). *)
Definition erase (index : nat) (count : size_type) (s : string) : string :=
    take index s ++ match count with
                    | None => ""
                    | Some n => drop (index + n) s
                    end.

  (** [s.substr(pos)] *)
Definition substr (pos : nat) (s : string) : string := drop pos s.

  (** [s.replace(pos, len, str)] *)
Definition replace (pos len : nat) (str s : string) : string :=
    take pos s ++ str ++ drop (pos + len) s.

  (** [s.insert(index, str)] *)
Definition insert (index : nat) (str s : string) : string :=
    take index s ++ str ++ drop index s.

  (** [s.append(str)] and [s.append(1, ch)] *)
Definition append (str s : string) : string := s ++ str.
Definition append_char (ch : ascii) (s : string) : string := s ++ String ch "".

End basic_string.

Import basic_string.

(* ================================================================== *)
(** ** C strings and the two constants of the class *)
(* ================================================================== *)

(** The constructor takes [const char*] arguments and stores them;
    [getFileName] hands [fileName] back as a [const char*] and
    [filterFileName] receives it as one.  Such a value is an address, and
    [==] on it compares addresses, not characters.  The unit owns two
    literals, [NA] and [NA_METHOD]; a caller that passes these constants
    (or a literal the toolchain has merged with them) passes [NA] or
    [NA_METHOD]; every other pointer designates a buffer of the caller, of
    which only the characters matter. *)
Inductive c_str : Type :=
| NA : c_str                           (* LocationInfo::NA        = "?"    *)
| NA_METHOD : c_str                    (* LocationInfo::NA_METHOD = "?::?" *)
| buffer (chars : string) : c_str.     (* storage distinct from both       *)

(** The characters a pointer designates, as [std::string(p)] reads them. *)
Definition c_str_chars (p : c_str) : string :=
  match p with
  | NA => "?"
  | NA_METHOD => "?::?"
  | buffer chars => chars
  end.

(** [p == NA] and [p == NA_METHOD] on pointers. *)
Definition ptr_eq_NA (p : c_str) : bool :=
  match p with NA => true | _ => false end.

Definition ptr_eq_NA_METHOD (p : c_str) : bool :=
  match p with NA_METHOD => true | _ => false end.

(* ================================================================== *)
(** ** The descriptor *)
(* ================================================================== *)

(** Members in the order every constructor initialises them. [lineNumber]
    is an [int]; no arithmetic is done on it. *)
Record LocationInfo : Type := mkLocationInfo {
  lineNumber : Z;
  fileName : c_str;
  shortFileName : string;
  methodName : c_str
}.

Section PathShortener.

  (** Whether the unit is compiled with [_WIN32] defined. *)
Variable defined_WIN32 : bool.

Definition SHORT_FILENAME_SPLIT_CHAR : string :=
    if defined_WIN32 then "\" else "/".

Definition filterFileName (fileName : string) : string :=
    let fullFileName := fileName in
    let found := rfind SHORT_FILENAME_SPLIT_CHAR fullFileName npos in
    match found with
    | Some found => substr (found + 1) fullFileName
    | None => fileName
    end.

  (** [LocationInfo(fileName1, methodName1, lineNumber1)] *)
Definition LocationInfo_ctor (fileName1 methodName1 : c_str) (lineNumber1 : Z)
    : LocationInfo :=
    let lineNumber := lineNumber1 in
    let fileName := fileName1 in
    let shortFileName := filterFileName (c_str_chars fileName) in
    let methodName := methodName1 in
    mkLocationInfo lineNumber fileName shortFileName methodName.

End PathShortener.

(** [LocationInfo()] *)
Definition LocationInfo_default : LocationInfo :=
  mkLocationInfo (-1)%Z NA (c_str_chars NA) NA_METHOD.

(** [LocationInfo(const LocationInfo& src)] *)
Definition LocationInfo_copy (src : LocationInfo) : LocationInfo :=
  mkLocationInfo (lineNumber src) (fileName src) (shortFileName src)
                 (methodName src).

(** [getLocationUnavailable()]: the function-local static, built by the
    default constructor. *)
Definition getLocationUnavailable : LocationInfo := LocationInfo_default.

(** [operator=]: three member assignments on [*this]. *)
Definition assign (this src : LocationInfo) : LocationInfo :=
  let this := mkLocationInfo (lineNumber this) (fileName src)
                             (shortFileName this) (methodName this) in
  let this := mkLocationInfo (lineNumber this) (fileName this)
                             (shortFileName this) (methodName src) in
  let this := mkLocationInfo (lineNumber src) (fileName this)
                             (shortFileName this) (methodName this) in
  this.

(** [clear()]: three member assignments on [*this]. *)
Definition clear (this : LocationInfo) : LocationInfo :=
  let this := mkLocationInfo (lineNumber this) NA
                             (shortFileName this) (methodName this) in
  let this := mkLocationInfo (lineNumber this) (fileName this)
                             (shortFileName this) NA_METHOD in
  let this := mkLocationInfo (-1)%Z (fileName this)
                             (shortFileName this) (methodName this) in
  this.

Definition getFileName (this : LocationInfo) : c_str := fileName this.
Definition getShortFileName (this : LocationInfo) : string := shortFileName this.
Definition getLineNumber (this : LocationInfo) : Z := lineNumber this.

Definition getMethodName (this : LocationInfo) : string :=
  let tmp := c_str_chars (methodName this) in
  let parenPos := find "(" tmp in
  let tmp := match parenPos with
             | Some parenPos => erase parenPos npos tmp
             | None => tmp
             end in
  let colonPos := rfind "::" tmp npos in
  match colonPos with
  | Some colonPos => erase 0 (Some (colonPos + 2)) tmp
  | None =>
      let spacePos := find " " tmp in
      match spacePos with
      | Some spacePos => erase 0 (Some (spacePos + 1)) tmp
      | None => tmp
      end
  end.

Definition getClassName (this : LocationInfo) : string :=
  let tmp := c_str_chars (methodName this) in
  let parenPos := find "(" tmp in
  let tmp := match parenPos with
             | Some parenPos => erase parenPos npos tmp
             | None => tmp
             end in
  let colonPos := rfind "::" tmp npos in
  match colonPos with
  | Some colonPos =>
      let tmp := erase colonPos npos tmp in
      let spacePos := find_last_of " " tmp in
      match spacePos with
      | Some spacePos => erase 0 (Some (spacePos + 1)) tmp
      | None => tmp
      end
  | None => erase 0 (Some (String.length tmp)) tmp
  end.

(* ================================================================== *)
(** ** The object-stream collaborator and [LocationInfo::write] *)
(* ================================================================== *)

(** The three operations of [ObjectOutputStream] that [write] invokes.  The
    class is implemented in another unit; [write] is stated against the
    interface.  [writeProlog] receives the class name, the class-descriptor
    increment, the descriptor bytes and their count. *)
Class ObjectOutputStream (OS : Type) : Type := {
  writeNull : OS -> OS;
  writeProlog : string -> Z -> list byte -> nat -> OS -> OS;
  writeUTFString : string -> OS -> OS
}.

(** An implementation that only records what it is asked to do. *)
Inductive call : Type :=
| call_writeNull
| call_writeProlog (className : string) (classDescIncrement : Z)
                   (classDesc : list byte) (len : nat)
| call_writeUTFString (s : string).

#[export] Instance recorder : ObjectOutputStream (list call) := {
  writeNull os := (os ++ [call_writeNull])%list;
  writeProlog className classDescIncrement classDesc len os :=
    (os ++ [call_writeProlog className classDescIncrement classDesc len])%list;
  writeUTFString s os := (os ++ [call_writeUTFString s])%list
}.

(** Running a recorded sequence against any implementation. *)
Definition replay {OS : Type} `{ObjectOutputStream OS} (c : call) (os : OS) : OS :=
  match c with
  | call_writeNull => writeNull os
  | call_writeProlog className classDescIncrement classDesc len =>
      writeProlog className classDescIncrement classDesc len os
  | call_writeUTFString s => writeUTFString s os
  end.

(** Modelled from the spec: [Pool::itoa] is declared in
    log4cxx/helpers/pool.h and defined outside this unit; the specification
    calls its result the decimal rendering of the line number. *)
Definition itoa (n : Z) : string := NilZero.string_of_int (Z.to_int n).

(** The [prolog] table of [write], byte for byte. *)
Definition prolog : list byte :=
  [ x72;
    x00;
    x21; x6f; x72; x67; x2e; x61; x70; x61; x63; x68; x65; x2e;
    x6c; x6f; x67; x34; x6a; x2e; x73; x70; x69; x2e; x4c; x6f;
    x63; x61; x74; x69; x6f; x6e; x49; x6e; x66; x6f; xed; x99;
    xbb; xe1; x4a; x91; xa5; x7c; x02;
    x00;
    x01; x4c;
    x00;
    x08; x66; x75; x6c; x6c; x49; x6e; x66; x6f; x74;
    x00;
    x12; x4c; x6a; x61; x76; x61; x2f; x6c; x61; x6e; x67; x2f;
    x53; x74; x72; x69; x6e; x67; x3b; x78; x70 ].

(** The guard of [write]:
    [lineNumber == -1 && fileName == NA && methodName == NA_METHOD]. *)
Definition write_guard (this : LocationInfo) : bool :=
  (lineNumber this =? -1)%Z
  && ptr_eq_NA (fileName this)
  && ptr_eq_NA_METHOD (methodName this).

(** The text [write] builds in its local [fullInfo]. *)
Definition write_fullInfo (this : LocationInfo) : string :=
  let line := itoa (lineNumber this) in
  let fullInfo := c_str_chars (methodName this) in
  let openParen := find "(" fullInfo in
  let fullInfo :=
    match openParen with
    | Some openParen =>
        let space := find " " fullInfo in
        match space with
        | Some space =>
            if (space <? openParen)%nat
            then erase 0 (Some (space + 1)) fullInfo
            else fullInfo
        | None => fullInfo
        end
    | None => fullInfo
    end in
  let openParen := find "(" fullInfo in
  let fullInfo :=
    match openParen with
    | Some openParen =>
        let classSep := rfind "::" fullInfo (Some openParen) in
        match classSep with
        | Some classSep => replace classSep 2 "." fullInfo
        | None => insert 0 "." fullInfo
        end
    | None => fullInfo
    end in
  let fullInfo := append_char "(" fullInfo in
  let fullInfo := append (c_str_chars (fileName this)) fullInfo in
  let fullInfo := append_char ":" fullInfo in
  let fullInfo := append line fullInfo in
  let fullInfo := append_char ")" fullInfo in
  fullInfo.

Definition write {OS : Type} `{ObjectOutputStream OS}
    (this : LocationInfo) (os : OS) : OS :=
  if write_guard this
  then writeNull os
  else
    let os := writeProlog "org.apache.log4j.spi.LocationInfo" 2 prolog
                          (List.length prolog) os in
    writeUTFString (write_fullInfo this) os.

(* ================================================================== *)
(** ** The specification's wording, as functions on text *)
(* ================================================================== *)

Module Spec.

  (** Is the character present? *)
Fixpoint contains (ch : ascii) (s : string) : bool :=
    match s with
    | "" => false
    | String a r => Ascii.eqb a ch || contains ch r
    end.

  (** "Truncate at the first [ch] if present". *)
Fixpoint truncate_at (ch : ascii) (s : string) : string :=
    match s with
    | "" => ""
    | String a r => if Ascii.eqb a ch then "" else String a (truncate_at ch r)
    end.

  (** The rest of the text, from the first [ch] on (empty without one). *)
Fixpoint from_first (ch : ascii) (s : string) : string :=
    match s with
    | "" => ""
    | String a r => if Ascii.eqb a ch then s else from_first ch r
    end.

  (** "The substring after the first [ch]", when there is one. *)
Fixpoint after_first (ch : ascii) (s : string) : option string :=
    match s with
    | "" => None
    | String a r => if Ascii.eqb a ch then Some r else after_first ch r
    end.

  (** Where the last occurrence of [str] starts, when [str] occurs. *)
Fixpoint last_occurrence (str s : string) : option nat :=
    match s with
    | "" => None
    | String _ r =>
        match last_occurrence str r with
        | Some i => Some (S i)
        | None => if String.prefix str s then Some 0 else None
        end
    end.

  (** "The substring after the last [str]", when [str] occurs. *)
Fixpoint after_last (str s : string) : option string :=
    match s with
    | "" => None
    | String _ r =>
        match after_last str r with
        | Some t => Some t
        | None => if String.prefix str s
                  then Some (drop (String.length str) s) else None
        end
    end.

  (** "Drop everything from the last [str] onward", when [str] occurs. *)
Fixpoint before_last (str s : string) : option string :=
    match s with
    | "" => None
    | String a r =>
        match before_last str r with
        | Some t => Some (String a t)
        | None => if String.prefix str s then Some "" else None
        end
    end.

  (** "Replace the last [str] by [new]", when [str] occurs. *)
Fixpoint replace_last (str new s : string) : option string :=
    match s with
    | "" => None
    | String a r =>
        match replace_last str new r with
        | Some t => Some (String a t)
        | None => if String.prefix str s
                  then Some (new ++ drop (String.length str) s) else None
        end
    end.

  (** The platform path separator: a backslash on Windows-family targets,
      a forward slash otherwise. *)
Definition path_separator (windows : bool) : ascii :=
    if windows then "\"%char else "/"%char.

  (** [methodName(raw)], steps 1 to 4. *)
Definition methodName (raw : string) : string :=
    let t := truncate_at "(" raw in
    match after_last "::" t with
    | Some m => m
    | None =>
        match after_first " " t with
        | Some m => m
        | None => t
        end
    end.

  (** [className(raw)], steps 1 to 4. *)
Definition className (raw : string) : string :=
    let t := truncate_at "(" raw in
    match before_last "::" t with
    | None => ""
    | Some q =>
        match after_last " " q with
        | Some c => c
        | None => q
        end
    end.

  (** Payload step 2: drop a leading return-type token. *)
Definition drop_return_type (raw : string) : string :=
    if contains "(" raw && contains " " (truncate_at "(" raw)
    then match after_first " " raw with
         | Some r => r
         | None => raw
         end
    else raw.

  (** Payload step 3: the qualifier before the first ["("]. *)
Definition dot_qualifier (s : string) : string :=
    if contains "(" s
    then match replace_last "::" "." (truncate_at "(" s) with
         | Some q => q ++ from_first "(" s
         | None => "." ++ s
         end
    else s.

  (** Payload step 4: the location suffix. *)
Definition location_suffix (file : string) (line : Z) : string :=
    "(" ++ file ++ ":" ++ itoa line ++ ")".

Definition fullInfo (raw file : string) (line : Z) : string :=
    dot_qualifier (drop_return_type raw) ++ location_suffix file line.

End Spec.

(** The layout of a class descriptor in the object-stream protocol, as the
    specification describes the preamble: a class name with its two-byte
    length, an eight-byte version identifier, flags, a counted field table
    and the terminator of the type table. *)
Module ClassDesc.

Definition TC_NULL : byte := x70.
Definition TC_CLASSDESC : byte := x72.
Definition TC_STRING : byte := x74.
Definition TC_ENDBLOCKDATA : byte := x78.
Definition SC_SERIALIZABLE : byte := x02.

Definition byte_of_nat (n : nat) : byte :=
    match Byte.of_nat (n mod 256) with
    | Some b => b
    | None => x00
    end.

  (** A two-byte big-endian count. *)
Definition u16 (n : nat) : list byte :=
    [byte_of_nat (n / 256); byte_of_nat n].

  (** A length-prefixed name. *)
Definition utf (s : string) : list byte :=
    (u16 (String.length s) ++ list_byte_of_string s)%list.

  (** A field of reference type: type code, name, and the type descriptor
      as a string object. *)
Record field : Type := mkField {
    typecode : ascii;
    name : string;
    type_descriptor : string
  }.

Definition field_bytes (f : field) : list byte :=
    ([byte_of_ascii (typecode f)] ++ utf (name f)
       ++ [TC_STRING] ++ utf (type_descriptor f))%list.

Definition class_desc (className : string) (serialVersionUID : list byte)
      (flags : byte) (fields : list field) : list byte :=
    ([TC_CLASSDESC] ++ utf className ++ serialVersionUID ++ [flags]
       ++ u16 (List.length fields) ++ flat_map field_bytes fields
       ++ [TC_ENDBLOCKDATA; TC_NULL])%list.

  (** The version identifier of [org.apache.log4j.spi.LocationInfo]. *)
Definition serialVersionUID : list byte :=
    [xed; x99; xbb; xe1; x4a; x91; xa5; x7c].

Definition fullInfo_field : field :=
    mkField "L" "fullInfo" "Ljava/lang/String;".

End ClassDesc.

(** The relation the three-argument constructor sets up between the two
    file-name members. *)
Definition short_name_agrees (defined_WIN32 : bool) (this : LocationInfo) : Prop :=
  shortFileName this = filterFileName defined_WIN32 (c_str_chars (fileName this)).

(* ================================================================== *)
(** ** The same functions with the library's range checks *)
(* ================================================================== *)

(** [erase], [substr], [replace] and [insert] throw [std::out_of_range]
    when their position lies beyond the end of the string.  Here each
    returns [None] in that case, and the four string-building functions of
    the unit are written once more over these checked operations, call for
    call. *)
Module checked.

Definition erase (index : nat) (count : size_type) (s : string)
    : option string :=
  if (index <=? String.length s)%nat
  then Some (basic_string.erase index count s) else None.

Definition substr (pos : nat) (s : string) : option string :=
  if (pos <=? String.length s)%nat
  then Some (basic_string.substr pos s) else None.

Definition replace (pos len : nat) (str s : string) : option string :=
  if (pos <=? String.length s)%nat
  then Some (basic_string.replace pos len str s) else None.

Definition insert (index : nat) (str s : string) : option string :=
  if (index <=? String.length s)%nat
  then Some (basic_string.insert index str s) else None.

(** Sequencing: an exception ends the function. *)
Definition bind {A B : Type} (x : option A) (k : A -> option B) : option B :=
  match x with
  | Some a => k a
  | None => None
  end.

Definition filterFileName (defined_WIN32 : bool) (fileName : string)
    : option string :=
  let fullFileName := fileName in
  let found := rfind (SHORT_FILENAME_SPLIT_CHAR defined_WIN32) fullFileName npos in
  match found with
  | Some found => substr (found + 1) fullFileName
  | None => Some fileName
  end.

Definition getMethodName (this : LocationInfo) : option string :=
  let tmp := c_str_chars (methodName this) in
  let parenPos := find "(" tmp in
  bind (match parenPos with
        | Some parenPos => erase parenPos npos tmp
        | None => Some tmp
        end) (fun tmp =>
  let colonPos := rfind "::" tmp npos in
  match colonPos with
  | Some colonPos => erase 0 (Some (colonPos + 2)) tmp
  | None =>
      let spacePos := find " " tmp in
      match spacePos with
      | Some spacePos => erase 0 (Some (spacePos + 1)) tmp
      | None => Some tmp
      end
  end).

Definition getClassName (this : LocationInfo) : option string :=
  let tmp := c_str_chars (methodName this) in
  let parenPos := find "(" tmp in
  bind (match parenPos with
        | Some parenPos => erase parenPos npos tmp
        | None => Some tmp
        end) (fun tmp =>
  let colonPos := rfind "::" tmp npos in
  match colonPos with
  | Some colonPos =>
      bind (erase colonPos npos tmp) (fun tmp =>
      let spacePos := find_last_of " " tmp in
      match spacePos with
      | Some spacePos => erase 0 (Some (spacePos + 1)) tmp
      | None => Some tmp
      end)
  | None => erase 0 (Some (String.length tmp)) tmp
  end).

Definition write_fullInfo (this : LocationInfo) : option string :=
  let line := itoa (lineNumber this) in
  let fullInfo := c_str_chars (methodName this) in
  let openParen := find "(" fullInfo in
  bind (match openParen with
        | Some openParen =>
            let space := find " " fullInfo in
            match space with
            | Some space =>
                if (space <? openParen)%nat
                then erase 0 (Some (space + 1)) fullInfo
                else Some fullInfo
            | None => Some fullInfo
            end
        | None => Some fullInfo
        end) (fun fullInfo =>
  let openParen := find "(" fullInfo in
  bind (match openParen with
        | Some openParen =>
            let classSep := rfind "::" fullInfo (Some openParen) in
            match classSep with
            | Some classSep => replace classSep 2 "." fullInfo
            | None => insert 0 "." fullInfo
            end
        | None => Some fullInfo
        end) (fun fullInfo =>
  let fullInfo := append_char "(" fullInfo in
  let fullInfo := append (c_str_chars (fileName this)) fullInfo in
  let fullInfo := append_char ":" fullInfo in
  let fullInfo := append line fullInfo in
  let fullInfo := append_char ")" fullInfo in
  Some fullInfo)).

End checked.

(* ================================================================== *)
(** ** Facts about the string operations *)
(* ================================================================== *)

Create Rewrite HintDb str.

Section Slices.

Lemma append_nil_r (s : string) : s ++ "" = s.
  Proof. induction s as [|a s IH]; simpl; congruence. Qed.

Lemma append_assoc (s t u : string) : (s ++ t) ++ u = s ++ t ++ u.
  Proof. induction s as [|a s IH]; simpl; congruence. Qed.

Lemma length_append (s t : string) :
    String.length (s ++ t) = String.length s + String.length t.
  Proof. induction s as [|a s IH]; simpl; congruence. Qed.

Lemma take_drop (n : nat) (s : string) : take n s ++ drop n s = s.
  Proof.
    revert s; induction n as [|n IH]; intros [|a s]; simpl; try reflexivity.
    now rewrite IH.
  Qed.

Lemma length_take (n : nat) (s : string) :
    n <= String.length s -> String.length (take n s) = n.
  Proof.
    revert s; induction n as [|n IH]; intros [|a s]; simpl; intros H;
      try reflexivity; try lia.
    rewrite IH; lia.
  Qed.

Lemma drop_length (s : string) : drop (String.length s) s = "".
  Proof. induction s as [|a s IH]; simpl; auto. Qed.

Lemma drop_append_length (s t : string) : drop (String.length s) (s ++ t) = t.
  Proof. induction s as [|a s IH]; simpl; auto. Qed.

Lemma take_take (i n : nat) (s : string) :
    i <= n -> take i (take n s) = take i s.
  Proof.
    revert n s; induction i as [|i IH]; intros [|n] [|a s] H; simpl;
      try reflexivity; try lia.
    rewrite IH; [reflexivity | lia].
  Qed.

Lemma drop_take_drop (i n : nat) (s : string) :
    i <= n -> drop i (take n s) ++ drop n s = drop i s.
  Proof.
    revert n s; induction i as [|i IH]; intros n s H.
    - apply take_drop.
    - destruct n as [|n]; [lia|]. destruct s as [|a s]; simpl; [reflexivity|].
      apply IH; lia.
  Qed.

Lemma prefix_length (str s : string) :
    String.prefix str s = true -> String.length str <= String.length s.
  Proof.
    revert s; induction str as [|c t IH]; intros [|a r]; simpl; intros H;
      try lia; try discriminate.
    destruct (ascii_dec c a); [|discriminate].
    apply IH in H; lia.
  Qed.

Lemma prefix_too_long (str s : string) :
    String.length s < String.length str -> String.prefix str s = false.
  Proof.
    intros H. destruct (String.prefix str s) eqn:E; [|reflexivity].
    apply prefix_length in E; lia.
  Qed.

End Slices.

#[export] Hint Rewrite append_nil_r append_assoc : str.

(** *** [find]: the first occurrence of a character *)

Section Find.

Variable ch : ascii.

Lemma find_lt (s : string) (i : nat) :
    find ch s = Some i -> i < String.length s.
  Proof.
    revert i; induction s as [|a r IH]; simpl; intros i H; [discriminate|].
    destruct (Ascii.eqb a ch).
    - injection H as <-; lia.
    - destruct (find ch r) as [j|]; [|discriminate].
      injection H as <-. specialize (IH j eq_refl); lia.
  Qed.

(** [find] returns the first position that holds [ch]. *)
Lemma find_is_first (s : string) (i : nat) :
  find ch s = Some i ->
  String.get i s = Some ch
  /\ forall j : nat, j < i -> String.get j s <> Some ch.
Proof.
  revert i; induction s as [|a r IH]; simpl; intros i H; [discriminate|].
  destruct (Ascii.eqb_spec a ch) as [->|Hne].
  - injection H as <-. split; [reflexivity | intros j Hj; lia].
  - destruct (find ch r) as [k|]; [|discriminate].
    injection H as <-. destruct (IH k eq_refl) as [Hk Hbefore].
    split; [exact Hk|].
    intros [|j] Hj; [congruence|]. apply Hbefore. lia.
Qed.

Lemma truncate_at_find (s : string) :
    Spec.truncate_at ch s =
    match find ch s with Some i => take i s | None => s end.
  Proof.
    induction s as [|a r IH]; simpl; [reflexivity|].
    destruct (Ascii.eqb a ch); [reflexivity|].
    rewrite IH. now destruct (find ch r).
  Qed.

Lemma from_first_find (s : string) :
    Spec.from_first ch s =
    match find ch s with Some i => drop i s | None => "" end.
  Proof.
    induction s as [|a r IH]; simpl; [reflexivity|].
    destruct (Ascii.eqb a ch); [reflexivity|].
    rewrite IH. now destruct (find ch r).
  Qed.

Lemma after_first_find (s : string) :
    Spec.after_first ch s = option_map (fun i => drop (i + 1) s) (find ch s).
  Proof.
    induction s as [|a r IH]; simpl; [reflexivity|].
    destruct (Ascii.eqb a ch); simpl; [now destruct r|].
    rewrite IH. now destruct (find ch r).
  Qed.

Lemma contains_find (s : string) :
    Spec.contains ch s =
    match find ch s with Some _ => true | None => false end.
  Proof.
    induction s as [|a r IH]; simpl; [reflexivity|].
    destruct (Ascii.eqb a ch); simpl; [reflexivity|].
    rewrite IH. now destruct (find ch r).
  Qed.

Lemma find_take (n : nat) (s : string) :
    find ch (take n s) =
    match find ch s with
    | Some i => if (i <? n)%nat then Some i else None
    | None => None
    end.
  Proof.
    revert n; induction s as [|a r IH]; intros [|n]; simpl; try reflexivity.
    - now destruct (Ascii.eqb a ch), (find ch r).
    - destruct (Ascii.eqb a ch); [reflexivity|].
      rewrite IH. destruct (find ch r) as [i|]; simpl; [|reflexivity].
      change (S i <? S n)%nat with (i <? n)%nat.
      now destruct (i <? n)%nat.
  Qed.

Lemma truncate_from_first (s : string) :
    Spec.truncate_at ch s ++ Spec.from_first ch s = s.
  Proof.
    induction s as [|a r IH]; simpl; [reflexivity|].
    destruct (Ascii.eqb a ch); simpl; congruence.
  Qed.

End Find.

(** *** [rfind]: the last occurrence of a non-empty string *)

Section Rfind.

  (** The searched string, non-empty as at every call site. *)
Variables (c : ascii) (t : string).
Let str := String c t.

Lemma rscan_cons (a : ascii) (r : string) (k : nat) :
    rscan str (String a r) (S k) =
    match rscan str r k with
    | Some i => Some (S i)
    | None => if String.prefix str (String a r) then Some 0 else None
    end.
  Proof.
    induction k as [|k IH].
    - cbn [rscan]. change (occurs_at str (String a r) 1) with (occurs_at str r 0).
      destruct (occurs_at str r 0); reflexivity.
    - cbn [rscan] in *.
      change (occurs_at str (String a r) (S (S k))) with (occurs_at str r (S k)).
      destruct (occurs_at str r (S k)); [reflexivity|].
      exact IH.
  Qed.

Lemma last_occurrence_short (s : string) :
    String.length s < String.length str -> Spec.last_occurrence str s = None.
  Proof.
    induction s as [|a r IH]; intros H; [reflexivity|].
    cbn [Spec.last_occurrence]. rewrite IH by (simpl in *; lia).
    now rewrite prefix_too_long.
  Qed.

Lemma last_occurrence_bound (s : string) (i : nat) :
    Spec.last_occurrence str s = Some i ->
    i + String.length str <= String.length s.
  Proof.
    revert i; induction s as [|a r IH]; intros i H; [discriminate|].
    cbn [Spec.last_occurrence] in H.
    destruct (Spec.last_occurrence str r) as [j|].
    - injection H as <-. specialize (IH j eq_refl). simpl in *; lia.
    - destruct (String.prefix str (String a r)) eqn:E; [|discriminate].
      injection H as <-. now apply prefix_length in E.
  Qed.

  (** [rfind] without a bound finds the last occurrence. *)
Lemma rfind_npos (s : string) :
    rfind str s npos = Spec.last_occurrence str s.
  Proof.
    induction s as [|a r IH]; [reflexivity|].
    cbn [Spec.last_occurrence]. unfold rfind, npos in *.
    set (n := String.length str) in *.
    change (String.length (String a r)) with (S (String.length r)).
    set (m := String.length r) in *.
    destruct (Nat.leb_spec n (S m)) as [Hle|Hgt].
    - destruct (Nat.leb_spec n m) as [Hle'|Hgt'].
      + replace (S m - n) with (S (m - n)) by lia.
        rewrite rscan_cons, IH. reflexivity.
      + replace (S m - n) with 0 by lia.
        rewrite <- IH. cbn [rscan]. unfold occurs_at. cbn [drop].
        now destruct (String.prefix str (String a r)).
    - rewrite last_occurrence_short by (subst n m; lia).
      rewrite prefix_too_long; [reflexivity|].
      subst n m; simpl in *; lia.
  Qed.

Lemma rfind_le (s : string) (pos : size_type) (i : nat) :
    rfind str s pos = Some i -> i + String.length str <= String.length s.
  Proof.
    unfold rfind. destruct (Nat.leb_spec (String.length str) (String.length s)) as [H|H];
      [|discriminate].
    set (k := match pos with None => _ | Some p => _ end).
    assert (Hk : k <= String.length s - String.length str)
      by (subst k; destruct pos; lia).
    clearbody k. revert Hk.
    induction k as [|k IH]; cbn [rscan]; intros Hk.
    - destruct (occurs_at str s 0); [|discriminate]. intros [= <-]; lia.
    - destruct (occurs_at str s (S k)); [intros [= <-]; lia|].
      apply IH; lia.
  Qed.

  (** [last_occurrence] is an occurrence, and no occurrence starts after
      it. *)
Lemma last_occurrence_none (s : string) :
  Spec.last_occurrence str s = None ->
  forall j : nat, occurs_at str s j = false.
Proof.
  induction s as [|a r IH]; intros H j.
  - now destruct j.
  - cbn [Spec.last_occurrence] in H.
    destruct (Spec.last_occurrence str r); [discriminate|].
    destruct (String.prefix str (String a r)) eqn:E; [discriminate|].
    destruct j as [|j]; [exact E|]. now apply IH.
Qed.

Lemma last_occurrence_is_last (s : string) (i : nat) :
  Spec.last_occurrence str s = Some i ->
  occurs_at str s i = true
  /\ forall j : nat, i < j -> occurs_at str s j = false.
Proof.
  revert i; induction s as [|a r IH]; intros i H; [discriminate|].
  cbn [Spec.last_occurrence] in H.
  destruct (Spec.last_occurrence str r) as [k|] eqn:Hr.
  - injection H as <-. destruct (IH k eq_refl) as [Hk Hafter]. split.
    + exact Hk.
    + intros [|j] Hj; [lia|]. apply (Hafter j). lia.
  - destruct (String.prefix str (String a r)) eqn:E; [|discriminate].
    injection H as <-. split; [exact E|].
    intros [|j] Hj; [lia|]. now apply (last_occurrence_none r Hr j).
Qed.

(** The three spec-level functions, through the position of the last
      occurrence. *)
Lemma after_last_occurrence (s : string) :
    Spec.after_last str s =
    option_map (fun i => drop (i + String.length str) s)
               (Spec.last_occurrence str s).
  Proof.
    induction s as [|a r IH]; [reflexivity|].
    cbn [Spec.after_last Spec.last_occurrence]. rewrite IH.
    destruct (Spec.last_occurrence str r); [reflexivity|].
    now destruct (String.prefix str (String a r)).
  Qed.

Lemma before_last_occurrence (s : string) :
    Spec.before_last str s =
    option_map (fun i => take i s) (Spec.last_occurrence str s).
  Proof.
    induction s as [|a r IH]; [reflexivity|].
    cbn [Spec.before_last Spec.last_occurrence]. rewrite IH.
    destruct (Spec.last_occurrence str r); [reflexivity|].
    now destruct (String.prefix str (String a r)).
  Qed.

Lemma replace_last_occurrence (new s : string) :
    Spec.replace_last str new s =
    option_map (fun i => take i s ++ new ++ drop (i + String.length str) s)
               (Spec.last_occurrence str s).
  Proof.
    induction s as [|a r IH]; [reflexivity|].
    cbn [Spec.replace_last Spec.last_occurrence]. rewrite IH.
    destruct (Spec.last_occurrence str r); [reflexivity|].
    now destruct (String.prefix str (String a r)).
  Qed.

  (** A bound at a character that [str] does not contain: only the text
      before that character is searched. *)
Variable ch : ascii.
Hypothesis ch_not_in_str : Spec.contains ch str = false.

Lemma prefix_take_find (u s : string) (p : nat) :
    Spec.contains ch u = false ->
    find ch s = Some p ->
    String.prefix u (take p s) = String.prefix u s.
  Proof.
    revert s p; induction u as [|b u IH]; intros s p Hu Hf.
    - now destruct (take p s), s.
    - simpl in Hu. apply orb_false_elim in Hu as [Hb Hu].
      destruct s as [|a r]; [discriminate|]. simpl in Hf.
      destruct (Ascii.eqb_spec a ch) as [->|Hne].
      + injection Hf as <-. simpl.
        destruct (ascii_dec b ch) as [->|]; [|reflexivity].
        now rewrite Ascii.eqb_refl in Hb.
      + destruct (find ch r) as [q|] eqn:Hq; [|discriminate].
        injection Hf as <-. simpl.
        destruct (ascii_dec b a); [|reflexivity].
        now apply IH.
  Qed.

Lemma rfind_bounded (s : string) (p : nat) :
    find ch s = Some p ->
    rfind str s (Some p) = Spec.last_occurrence str (take p s).
  Proof.
    revert p; induction s as [|a r IH]; intros p Hf; [discriminate|].
    pose proof (prefix_take_find str _ _ ch_not_in_str Hf) as Hpre.
    simpl in Hf. destruct (Ascii.eqb_spec a ch) as [->|Hne].
    - injection Hf as <-. cbn [take] in *. cbn [Spec.last_occurrence].
      unfold rfind. rewrite Nat.min_0_r. cbn [rscan]. unfold occurs_at.
      cbn [drop]. rewrite <- Hpre.
      now destruct (_ <=? _)%nat.
    - destruct (find ch r) as [q|] eqn:Hq; [|discriminate].
      injection Hf as <-. specialize (IH q eq_refl).
      cbn [take] in *. cbn [Spec.last_occurrence]. rewrite Hpre, <- IH.
      unfold rfind.
      set (n := String.length str) in *.
      change (String.length (String a r)) with (S (String.length r)).
      set (m := String.length r) in *.
      destruct (Nat.leb_spec n (S m)) as [Hle|Hgt].
      + destruct (Nat.leb_spec n m) as [Hle'|Hgt'].
        * replace (Nat.min (S m - n) (S q)) with (S (Nat.min (m - n) q)) by lia.
          now rewrite rscan_cons.
        * replace (Nat.min (S m - n) (S q)) with 0 by lia.
          cbn [rscan]. unfold occurs_at. cbn [drop].
          now destruct (String.prefix str (String a r)).
      + destruct (Nat.leb_spec n m) as [Hle'|Hgt']; [lia|].
        rewrite prefix_too_long; [reflexivity|].
        subst n m; simpl in *; lia.
  Qed.

End Rfind.

(** *** What the unit's calls of [erase] leave *)

Lemma erase_to_end (pos : nat) (s : string) : erase pos npos s = take pos s.
Proof. unfold erase, npos. apply append_nil_r. Qed.

Lemma erase_front (n : nat) (s : string) : erase 0 (Some n) s = drop n s.
Proof. reflexivity. Qed.

#[export] Hint Rewrite erase_to_end erase_front : str.

(** Truncation at the first ["("], as both accessors and the spec do it. *)
Lemma truncate_paren (raw : string) :
  match find "(" raw with
  | Some parenPos => erase parenPos npos raw
  | None => raw
  end = Spec.truncate_at "(" raw.
Proof.
  rewrite truncate_at_find.
  destruct (find "(" raw); [apply erase_to_end | reflexivity].
Qed.

(* ================================================================== *)
(** ** SignatureParser: [getMethodName] and [getClassName] *)
(* ================================================================== *)

Lemma getMethodName_parses (this : LocationInfo) :
  getMethodName this = Spec.methodName (c_str_chars (methodName this)).
Proof.
  unfold getMethodName, Spec.methodName.
  rewrite truncate_paren.
  set (tmp := Spec.truncate_at "(" _).
  rewrite rfind_npos, after_last_occurrence, after_first_find.
  destruct (Spec.last_occurrence "::" tmp) as [colonPos|]; simpl.
  - reflexivity.
  - destruct (find " " tmp) as [spacePos|]; reflexivity.
Qed.

Lemma getClassName_parses (this : LocationInfo) :
  getClassName this = Spec.className (c_str_chars (methodName this)).
Proof.
  unfold getClassName, Spec.className, find_last_of.
  rewrite truncate_paren.
  set (tmp := Spec.truncate_at "(" _).
  rewrite rfind_npos, before_last_occurrence.
  destruct (Spec.last_occurrence "::" tmp) as [colonPos|]; simpl.
  - rewrite erase_to_end, rfind_npos, after_last_occurrence.
    destruct (Spec.last_occurrence " " (take colonPos tmp)); reflexivity.
  - apply drop_length.
Qed.

(** C5. For every stored raw signature, [getMethodName] returns: the
    signature truncated at its first ["("], then the text after the last
    ["::"] if there is one, otherwise the text after the first space if
    there is one, otherwise the whole truncated text.  In particular
    ["int myMethod(int)"] and the bare ["myMethod"] both give ["myMethod"]. *)
Theorem getMethodName_correct :
  (forall this : LocationInfo,
      getMethodName this = Spec.methodName (c_str_chars (methodName this)))
  /\ (forall (line : Z) (file : c_str) (short : string),
         getMethodName (mkLocationInfo line file short (buffer "int myMethod(int)"))
         = "myMethod")
  /\ (forall (line : Z) (file : c_str) (short : string),
         getMethodName (mkLocationInfo line file short (buffer "myMethod"))
         = "myMethod").
Proof.
  split; [exact getMethodName_parses|].
  split; intros; reflexivity.
Qed.

(** C6. For every stored raw signature, [getClassName] returns: the
    signature truncated at its first ["("]; the empty string when no ["::"]
    remains; otherwise the text before the last ["::"], of which only what
    follows its last space is kept if it has a space.  In particular the
    signature of [MyNamespace::MyClass::myMethod] with its two-argument
    list gives ["MyNamespace::MyClass"]: only the last ["::"] separates
    class from method. *)
Theorem getClassName_correct :
  (forall this : LocationInfo,
      getClassName this = Spec.className (c_str_chars (methodName this)))
  /\ (forall (line : Z) (file : c_str) (short : string),
         getClassName
           (mkLocationInfo line file short
              (buffer "MyNamespace::MyClass::myMethod(int, char*)"))
         = "MyNamespace::MyClass").
Proof.
  split; [exact getClassName_parses|].
  intros; reflexivity.
Qed.

(* ================================================================== *)
(** ** PathShortener: [filterFileName] and the constructor *)
(* ================================================================== *)

Section Separator.

Variable ch : ascii.

Lemma last_occurrence_absent (s : string) :
  Spec.contains ch s = false ->
  Spec.last_occurrence (String ch "") s = None.
Proof.
  induction s as [|a r IH]; [reflexivity|]. simpl.
  intros H. apply orb_false_elim in H as [Ha Hr].
  rewrite (IH Hr).
  destruct (ascii_dec ch a) as [->|]; [|reflexivity].
  now rewrite Ascii.eqb_refl in Ha.
Qed.

Lemma last_occurrence_split (pre post : string) :
  Spec.contains ch post = false ->
  Spec.last_occurrence (String ch "") (pre ++ String ch post)
  = Some (String.length pre).
Proof.
  intros H. induction pre as [|a r IH].
  - cbn [String.append String.length Spec.last_occurrence].
    rewrite (last_occurrence_absent _ H). simpl.
    destruct (ascii_dec ch ch); [|congruence]. now destruct post.
  - cbn [String.append String.length Spec.last_occurrence].
    now rewrite IH.
Qed.

End Separator.

Lemma SHORT_FILENAME_SPLIT_CHAR_is_char (windows : bool) :
  SHORT_FILENAME_SPLIT_CHAR windows = String (Spec.path_separator windows) "".
Proof. now destruct windows. Qed.

Lemma filterFileName_after_last (windows : bool) (pre post : string) :
  Spec.contains (Spec.path_separator windows) post = false ->
  filterFileName windows (pre ++ String (Spec.path_separator windows) post) = post.
Proof.
  intros H. unfold filterFileName, substr.
  rewrite SHORT_FILENAME_SPLIT_CHAR_is_char, rfind_npos.
  rewrite (last_occurrence_split _ _ _ H).
  replace (String.length pre + 1) with (String.length (pre ++ String (Spec.path_separator windows) ""))
    by (rewrite length_append; reflexivity).
  replace (pre ++ String (Spec.path_separator windows) post)
    with ((pre ++ String (Spec.path_separator windows) "") ++ post)
    by (rewrite append_assoc; reflexivity).
  apply drop_append_length.
Qed.

Lemma filterFileName_unchanged (windows : bool) (path : string) :
  Spec.contains (Spec.path_separator windows) path = false ->
  filterFileName windows path = path.
Proof.
  intros H. unfold filterFileName.
  rewrite SHORT_FILENAME_SPLIT_CHAR_is_char, rfind_npos.
  now rewrite (last_occurrence_absent _ _ H).
Qed.

(** C7. [filterFileName] returns what follows the last path separator of
    its argument when there is one, and the argument unchanged when there is
    none; with the forward slash, ["/a/b/c.cpp"] gives ["c.cpp"] and
    ["c.cpp"] stays ["c.cpp"].  A descriptor built by the three-argument
    constructor holds [filterFileName] of its file name as short file name,
    and [getShortFileName] returns that stored value. *)
Theorem filterFileName_correct :
  (forall (windows : bool) (pre post : string),
      Spec.contains (Spec.path_separator windows) post = false ->
      filterFileName windows (pre ++ String (Spec.path_separator windows) post)
      = post)
  /\ (forall (windows : bool) (path : string),
         Spec.contains (Spec.path_separator windows) path = false ->
         filterFileName windows path = path)
  /\ filterFileName false "/a/b/c.cpp" = "c.cpp"
  /\ filterFileName false "c.cpp" = "c.cpp"
  /\ (forall (windows : bool) (fileName1 methodName1 : c_str) (lineNumber1 : Z),
         getShortFileName
           (LocationInfo_ctor windows fileName1 methodName1 lineNumber1)
         = filterFileName windows (c_str_chars fileName1)).
Proof.
  split; [exact filterFileName_after_last|].
  split; [exact filterFileName_unchanged|].
  repeat split.
Qed.

Lemma filterFileName_correct_witness :
  Spec.contains (Spec.path_separator false) "c.cpp" = false
  /\ filterFileName false ("/a/b" ++ String (Spec.path_separator false) "c.cpp")
     = "c.cpp"
  /\ Spec.contains (Spec.path_separator true) "/a/b/c.cpp" = false
  /\ filterFileName true "/a/b/c.cpp" = "/a/b/c.cpp".
Proof.
  split; [reflexivity|].
  split; [apply (proj1 filterFileName_correct false "/a/b" "c.cpp"); reflexivity|].
  split; [reflexivity|].
  apply (proj1 (proj2 filterFileName_correct) true "/a/b/c.cpp"); reflexivity.
Defined.

(* ================================================================== *)
(** ** LocationDescriptor: [clear] and assignment *)
(* ================================================================== *)

(** C8 (evaluation at the failing input).  A descriptor built from a real
    path and then cleared keeps the short name derived at construction: it
    is not the default-constructed descriptor, whose short file name is
    ["?"]. *)
Theorem clear_differs_from_default :
  clear (LocationInfo_ctor false (buffer "/a/b/c.cpp") (buffer "Foo::bar(int)") 42)
  = mkLocationInfo (-1) NA "c.cpp" NA_METHOD
  /\ LocationInfo_default = mkLocationInfo (-1) NA "?" NA_METHOD
  /\ clear (LocationInfo_ctor false (buffer "/a/b/c.cpp") (buffer "Foo::bar(int)") 42)
     <> LocationInfo_default.
Proof.
  split; [reflexivity|]. split; [reflexivity|]. discriminate.
Qed.

(** C9. Assignment gives the target the source's [fileName], [methodName]
    and [lineNumber] and leaves the target's [shortFileName] as it was:
    neither recomputed from the new file name nor copied from the source. *)
Theorem assign_frame :
  (forall this src : LocationInfo,
      fileName (assign this src) = fileName src
      /\ methodName (assign this src) = methodName src
      /\ lineNumber (assign this src) = lineNumber src
      /\ shortFileName (assign this src) = shortFileName this)
  /\ (let this := LocationInfo_ctor false (buffer "/a/b/c.cpp") (buffer "f()") 1 in
      let src := LocationInfo_ctor false (buffer "/x/y/z.cpp") (buffer "g()") 2 in
      getShortFileName (assign this src) = "c.cpp"
      /\ getShortFileName src = "z.cpp"
      /\ filterFileName false (c_str_chars (getFileName (assign this src))) = "z.cpp").
Proof.
  split; [intros; repeat split|]. repeat split.
Qed.

(** C10. [clear] sets [fileName], [methodName] and [lineNumber] to [NA]
    (the text ["?"]), [NA_METHOD] (the text ["?::?"]) and [-1], and leaves
    [shortFileName] as it was; a descriptor built from a real path keeps,
    once cleared, the short name derived at construction. *)
Theorem clear_frame :
  (forall this : LocationInfo,
      fileName (clear this) = NA
      /\ c_str_chars (fileName (clear this)) = "?"
      /\ methodName (clear this) = NA_METHOD
      /\ c_str_chars (methodName (clear this)) = "?::?"
      /\ lineNumber (clear this) = (-1)%Z
      /\ shortFileName (clear this) = shortFileName this)
  /\ (forall (windows : bool) (fileName1 methodName1 : c_str) (lineNumber1 : Z),
         getShortFileName
           (clear (LocationInfo_ctor windows fileName1 methodName1 lineNumber1))
         = filterFileName windows (c_str_chars fileName1))
  /\ getShortFileName
       (clear (LocationInfo_ctor false (buffer "/a/b/c.cpp") (buffer "f()") 7))
     = "c.cpp".
Proof.
  split; [intros; repeat split|]. split; [reflexivity|reflexivity].
Qed.

(* ================================================================== *)
(** ** CompatSerializer: the payload text *)
(* ================================================================== *)

(** Step 2 of the payload, as [write] does it with positions. *)
Lemma drop_return_type_code (raw : string) :
  match find "(" raw with
  | Some openParen =>
      match find " " raw with
      | Some space =>
          if (space <? openParen)%nat
          then erase 0 (Some (space + 1)) raw
          else raw
      | None => raw
      end
  | None => raw
  end = Spec.drop_return_type raw.
Proof.
  unfold Spec.drop_return_type.
  rewrite contains_find, truncate_at_find, after_first_find.
  destruct (find "(" raw) as [openParen|]; [|reflexivity].
  rewrite contains_find, find_take.
  destruct (find " " raw) as [space|]; [|reflexivity].
  simpl. now destruct (space <? openParen)%nat.
Qed.

(** Step 3 of the payload, as [write] does it with positions. *)
Lemma dot_qualifier_code (s : string) :
  match find "(" s with
  | Some openParen =>
      match rfind "::" s (Some openParen) with
      | Some classSep => replace classSep 2 "." s
      | None => insert 0 "." s
      end
  | None => s
  end = Spec.dot_qualifier s.
Proof.
  unfold Spec.dot_qualifier.
  rewrite contains_find.
  destruct (find "(" s) as [openParen|] eqn:Hparen; [|reflexivity].
  rewrite (rfind_bounded ":" ":" "(" eq_refl s openParen Hparen).
  rewrite replace_last_occurrence, truncate_at_find, from_first_find, Hparen.
  pose proof (find_lt _ _ _ Hparen) as Hlt.
  destruct (Spec.last_occurrence "::" (take openParen s)) as [classSep|] eqn:Hsep;
    [|reflexivity].
  apply last_occurrence_bound in Hsep.
  rewrite length_take in Hsep by lia.
  cbn [option_map String.length] in *. unfold replace.
  rewrite take_take by lia.
  rewrite !append_assoc. f_equal. f_equal.
  symmetry. apply drop_take_drop. lia.
Qed.

Lemma write_fullInfo_builds (this : LocationInfo) :
  write_fullInfo this =
  Spec.fullInfo (c_str_chars (methodName this)) (c_str_chars (fileName this))
                (lineNumber this).
Proof.
  unfold write_fullInfo, Spec.fullInfo, Spec.location_suffix. cbv zeta.
  rewrite drop_return_type_code, dot_qualifier_code.
  unfold append, append_char. now rewrite !append_assoc.
Qed.

(** The text from the first ["("] on survives both rewriting steps. *)
Lemma from_first_after_first (a b : ascii) (s r : string) :
  Spec.contains a (Spec.truncate_at b s) = true ->
  Spec.after_first a s = Some r ->
  Spec.from_first b r = Spec.from_first b s.
Proof.
  induction s as [|x t IH]; [discriminate|]. cbn.
  destruct (Ascii.eqb x b); [discriminate|]. cbn.
  destruct (Ascii.eqb x a); cbn.
  - now intros _ [= ->].
  - exact IH.
Qed.

Lemma drop_return_type_keeps (raw : string) :
  Spec.from_first "(" (Spec.drop_return_type raw) = Spec.from_first "(" raw.
Proof.
  unfold Spec.drop_return_type.
  destruct (Spec.contains "(" raw); [|reflexivity].
  destruct (Spec.contains " " (Spec.truncate_at "(" raw)) eqn:Hsp; [|reflexivity].
  destruct (Spec.after_first " " raw) as [r|] eqn:Hr; [|reflexivity].
  cbn [andb]. now apply from_first_after_first with (a := " "%char).
Qed.

Lemma dot_qualifier_keeps (s : string) :
  exists q : string, Spec.dot_qualifier s = q ++ Spec.from_first "(" s.
Proof.
  unfold Spec.dot_qualifier.
  destruct (Spec.contains "(" s) eqn:Hc.
  - destruct (Spec.replace_last "::" "." (Spec.truncate_at "(" s)) as [q|].
    + now exists q.
    + exists ("." ++ Spec.truncate_at "(" s).
      now rewrite append_assoc, truncate_from_first.
  - exists s. rewrite from_first_find.
    rewrite contains_find in Hc.
    destruct (find "(" s); [discriminate|]. now rewrite append_nil_r.
Qed.

Lemma fullInfo_keeps_arguments (raw file : string) (line : Z) :
  exists q : string,
    Spec.fullInfo raw file line
    = q ++ Spec.from_first "(" raw ++ Spec.location_suffix file line.
Proof.
  unfold Spec.fullInfo.
  destruct (dot_qualifier_keeps (Spec.drop_return_type raw)) as [q Hq].
  exists q. now rewrite Hq, drop_return_type_keeps, append_assoc.
Qed.

(* ================================================================== *)
(** ** CompatSerializer: [write] *)
(* ================================================================== *)

(** Whatever implements the stream, [write] performs on it the calls the
    recorder lists, in order. *)
Lemma write_replay {OS : Type} `{ObjectOutputStream OS}
    (this : LocationInfo) (os : OS) :
  write this os = fold_left (fun os c => replay c os) (write this []) os.
Proof.
  unfold write. now destruct (write_guard this).
Qed.

Lemma write_guard_true (this : LocationInfo) :
  write_guard this = true <->
  lineNumber this = (-1)%Z /\ fileName this = NA /\ methodName this = NA_METHOD.
Proof.
  unfold write_guard. rewrite !andb_true_iff, Z.eqb_eq.
  destruct (fileName this), (methodName this); simpl;
    intuition (discriminate || reflexivity).
Qed.

(** A descriptor that passes the guard holds the three sentinel texts. *)
Lemma write_guard_sentinel_text (this : LocationInfo) :
  write_guard this = true ->
  lineNumber this = (-1)%Z
  /\ c_str_chars (fileName this) = "?"
  /\ c_str_chars (methodName this) = "?::?".
Proof.
  intros H. apply write_guard_true in H as (Hl & Hf & Hm).
  now rewrite Hl, Hf, Hm.
Qed.

(** C1. For every descriptor that does not take the null branch, the text
    handed to [writeUTFString] is built from the raw signature by: dropping,
    when a ["("] exists and a space occurs before it, everything up to and
    including the first space; then, when a ["("] is present, replacing the
    last ["::"] before it by ["."], or inserting a leading ["."] when there
    is none; then appending ["("], the file name, [":"], the decimal line
    number and [")"].  The text from the first ["("] of the signature on,
    argument list included, is kept in front of the appended location. *)
Theorem write_payload_text :
  forall this : LocationInfo,
    write_guard this = false ->
    write this []
    = [ call_writeProlog "org.apache.log4j.spi.LocationInfo" 2 prolog
                         (List.length prolog);
        call_writeUTFString
          (Spec.fullInfo (c_str_chars (methodName this))
                         (c_str_chars (fileName this)) (lineNumber this)) ]
    /\ exists q : string,
         Spec.fullInfo (c_str_chars (methodName this))
                       (c_str_chars (fileName this)) (lineNumber this)
         = q ++ Spec.from_first "(" (c_str_chars (methodName this))
             ++ Spec.location_suffix (c_str_chars (fileName this))
                                     (lineNumber this).
Proof.
  intros this Hguard. split.
  - unfold write. rewrite Hguard, write_fullInfo_builds. reflexivity.
  - apply fullInfo_keeps_arguments.
Qed.

Lemma write_payload_text_witness :
  write (mkLocationInfo 7 (buffer "/src/a.cpp") "a.cpp"
           (buffer "void ns::Foo::bar(int a, char b)")) []
  = [ call_writeProlog "org.apache.log4j.spi.LocationInfo" 2 prolog 81;
      call_writeUTFString "ns::Foo.bar(int a, char b)(/src/a.cpp:7)" ].
Proof.
  apply (write_payload_text
           (mkLocationInfo 7 (buffer "/src/a.cpp") "a.cpp"
              (buffer "void ns::Foo::bar(int a, char b)"))).
  reflexivity.
Defined.

(** C2. Every serialization that is not the null marker starts with one
    call of [writeProlog], the same for every descriptor: it passes the
    class name ["org.apache.log4j.spi.LocationInfo"] and the constant table
    [prolog], whose bytes are a class descriptor with that name (33
    characters, length-prefixed), the eight-byte version identifier, a field
    table of one field of reference type named ["fullInfo"] with type
    descriptor ["Ljava/lang/String;"], and the terminator of the type
    table. *)
Theorem write_preamble :
  prolog = ClassDesc.class_desc "org.apache.log4j.spi.LocationInfo"
             ClassDesc.serialVersionUID ClassDesc.SC_SERIALIZABLE
             [ClassDesc.fullInfo_field]
  /\ ClassDesc.utf "org.apache.log4j.spi.LocationInfo"
     = (x00 :: x21 :: list_byte_of_string "org.apache.log4j.spi.LocationInfo")%list
  /\ String.length "org.apache.log4j.spi.LocationInfo" = 33
  /\ List.length ClassDesc.serialVersionUID = 8
  /\ ClassDesc.fullInfo_field
     = ClassDesc.mkField "L" "fullInfo" "Ljava/lang/String;"
  /\ (forall (this : LocationInfo) (os : list call),
         write_guard this = false ->
         exists payload : string,
           write this os
           = (os ++ [ call_writeProlog "org.apache.log4j.spi.LocationInfo" 2
                                       prolog 81;
                      call_writeUTFString payload ])%list).
Proof.
  repeat (split; [reflexivity|]).
  intros this os Hguard. exists (write_fullInfo this).
  unfold write. rewrite Hguard. cbn.
  now rewrite <- app_assoc.
Qed.

Lemma write_preamble_witness :
  exists payload : string,
    write (mkLocationInfo 42 (buffer "Foo.cpp") "Foo.cpp" NA_METHOD) []
    = [ call_writeProlog "org.apache.log4j.spi.LocationInfo" 2 prolog 81;
        call_writeUTFString payload ].
Proof.
  apply (proj2 (proj2 (proj2 (proj2 (proj2 write_preamble))))
           (mkLocationInfo 42 (buffer "Foo.cpp") "Foo.cpp" NA_METHOD) []).
  reflexivity.
Defined.

(** C3, as stated, fails: a descriptor whose line is [-1], whose method name
    is [NA_METHOD] and whose file name is another buffer holding the text
    ["?"] has the three sentinel texts, and [write] does not emit the null
    marker for it. *)
Lemma write_null_by_text_counterexample :
  ~ (forall this : LocationInfo,
        write this [] = [call_writeNull] <->
        (lineNumber this = (-1)%Z
         /\ c_str_chars (fileName this) = "?"
         /\ c_str_chars (methodName this) = "?::?")).
Proof.
  intros H.
  specialize (H (mkLocationInfo (-1) (buffer "?") "?" NA_METHOD)).
  destruct H as [_ H].
  assert (Hnull : write (mkLocationInfo (-1) (buffer "?") "?" NA_METHOD) []
                  = [call_writeNull]) by (apply H; repeat split).
  discriminate Hnull.
Qed.

(** C3, amended. [write] emits the null marker, and nothing else, exactly
    when the line is [-1] and the file and method names are the constants
    [NA] and [NA_METHOD] themselves; then the three texts are the sentinels.
    Every other descriptor gets the preamble followed by the payload built
    from its fields, sentinel texts included. *)
Theorem write_null_iff_constants :
  forall this : LocationInfo,
    (write this [] = [call_writeNull] <->
     (lineNumber this = (-1)%Z /\ fileName this = NA
      /\ methodName this = NA_METHOD))
    /\ (write this [] = [call_writeNull] ->
        lineNumber this = (-1)%Z
        /\ c_str_chars (fileName this) = "?"
        /\ c_str_chars (methodName this) = "?::?")
    /\ (write this [] <> [call_writeNull] ->
        write this []
        = [ call_writeProlog "org.apache.log4j.spi.LocationInfo" 2 prolog 81;
            call_writeUTFString
              (Spec.fullInfo (c_str_chars (methodName this))
                             (c_str_chars (fileName this))
                             (lineNumber this)) ]).
Proof.
  intros this.
  assert (Hw : write this [] = [call_writeNull] <-> write_guard this = true).
  { unfold write. destruct (write_guard this); cbn; split; intros H;
      (reflexivity || discriminate). }
  split; [now rewrite Hw, write_guard_true|].
  split.
  - intros H. apply write_guard_sentinel_text. now apply Hw.
  - intros H. unfold write in *.
    destruct (write_guard this); [now exfalso; apply H|].
    now rewrite write_fullInfo_builds.
Qed.

Lemma write_null_iff_constants_witness :
  write LocationInfo_default [] = [call_writeNull]
  /\ write (clear (mkLocationInfo 42 (buffer "Foo.cpp") "Foo.cpp" (buffer "f()"))) []
     = [call_writeNull]
  /\ write (mkLocationInfo 42 (buffer "Foo.cpp") "Foo.cpp" NA_METHOD) []
     = [ call_writeProlog "org.apache.log4j.spi.LocationInfo" 2 prolog 81;
         call_writeUTFString "?::?(Foo.cpp:42)" ]
  /\ write (mkLocationInfo (-1) (buffer "?") "?" NA_METHOD) []
     = [ call_writeProlog "org.apache.log4j.spi.LocationInfo" 2 prolog 81;
         call_writeUTFString "?::?(?:-1)" ].
Proof.
  split.
  { apply (proj2 (proj1 (write_null_iff_constants LocationInfo_default))).
    repeat split. }
  split.
  { apply (proj2 (proj1 (write_null_iff_constants
       (clear (mkLocationInfo 42 (buffer "Foo.cpp") "Foo.cpp" (buffer "f()")))))).
    repeat split. }
  split.
  { apply (proj2 (proj2 (write_null_iff_constants
       (mkLocationInfo 42 (buffer "Foo.cpp") "Foo.cpp" NA_METHOD)))).
    discriminate. }
  apply (proj2 (proj2 (write_null_iff_constants
       (mkLocationInfo (-1) (buffer "?") "?" NA_METHOD)))).
  discriminate.
Defined.

(** C4, as stated, fails: for file ["Foo.cpp"], signature ["Foo::bar(int)"]
    and line 42 the payload is not [".bar(Foo.cpp:42)"]. *)
Lemma write_Foo_bar_counterexample :
  write (LocationInfo_ctor false (buffer "Foo.cpp") (buffer "Foo::bar(int)") 42) []
  <> [ call_writeProlog "org.apache.log4j.spi.LocationInfo" 2 prolog 81;
       call_writeUTFString ".bar(Foo.cpp:42)" ].
Proof. discriminate. Qed.

(** C4, amended. For file ["Foo.cpp"], signature ["Foo::bar(int)"] and line
    42 the payload is exactly ["Foo.bar(int)(Foo.cpp:42)"]: the ["::"] is
    replaced by ["."], class name and argument list stay. *)
Theorem write_Foo_bar :
  forall windows : bool,
    write (LocationInfo_ctor windows (buffer "Foo.cpp") (buffer "Foo::bar(int)") 42) []
    = [ call_writeProlog "org.apache.log4j.spi.LocationInfo" 2 prolog 81;
        call_writeUTFString "Foo.bar(int)(Foo.cpp:42)" ].
Proof. intros windows. reflexivity. Qed.

(* ================================================================== *)
(** ** No position is out of range *)
(* ================================================================== *)

Lemma checked_erase_in_range (index : nat) (count : size_type) (s : string) :
  index <= String.length s ->
  checked.erase index count s = Some (erase index count s).
Proof.
  intros H. unfold checked.erase.
  now destruct (Nat.leb_spec index (String.length s)); [|lia].
Qed.

Lemma checked_paren_erase (tmp : string) :
  match find "(" tmp with
  | Some parenPos => checked.erase parenPos npos tmp
  | None => Some tmp
  end
  = Some match find "(" tmp with
         | Some parenPos => erase parenPos npos tmp
         | None => tmp
         end.
Proof.
  destruct (find "(" tmp) as [parenPos|] eqn:H; [|reflexivity].
  apply checked_erase_in_range. apply find_lt in H. lia.
Qed.

(** The positions the unit passes to [erase], [substr], [replace] and
    [insert] always lie inside the string: for every file name and every
    descriptor the checked functions return, without exception, the value
    of the unchecked ones. *)
Theorem no_out_of_range :
  (forall (windows : bool) (path : string),
      checked.filterFileName windows path = Some (filterFileName windows path))
  /\ (forall this : LocationInfo,
         checked.getMethodName this = Some (getMethodName this))
  /\ (forall this : LocationInfo,
         checked.getClassName this = Some (getClassName this))
  /\ (forall this : LocationInfo,
         checked.write_fullInfo this = Some (write_fullInfo this)).
Proof.
  repeat split.
  - intros windows path. unfold checked.filterFileName, filterFileName.
    rewrite SHORT_FILENAME_SPLIT_CHAR_is_char.
    destruct (rfind _ path npos) as [found|] eqn:H; [|reflexivity].
    apply rfind_le in H. unfold checked.substr. cbn [String.length] in H.
    now destruct (Nat.leb_spec (found + 1) (String.length path)); [|lia].
  - intros this. unfold checked.getMethodName, getMethodName. cbv zeta.
    rewrite checked_paren_erase. cbn [checked.bind].
    destruct (rfind "::" _ npos); [now apply checked_erase_in_range; lia|].
    destruct (find " " _); [now apply checked_erase_in_range; lia|reflexivity].
  - intros this. unfold checked.getClassName, getClassName. cbv zeta.
    rewrite checked_paren_erase. cbn [checked.bind].
    destruct (rfind "::" _ npos) as [colonPos|] eqn:H.
    + apply rfind_le in H.
      rewrite checked_erase_in_range by lia. cbn [checked.bind].
      destruct (find_last_of " " _);
        [now apply checked_erase_in_range; lia|reflexivity].
    + apply checked_erase_in_range; lia.
  - intros this. unfold checked.write_fullInfo, write_fullInfo. cbv zeta.
    set (raw := c_str_chars (methodName this)).
    assert (H1 : forall s : string,
               match find "(" s with
               | Some openParen =>
                   match find " " s with
                   | Some space =>
                       if (space <? openParen)%nat
                       then checked.erase 0 (Some (space + 1)) s
                       else Some s
                   | None => Some s
                   end
               | None => Some s
               end
               = Some match find "(" s with
                      | Some openParen =>
                          match find " " s with
                          | Some space =>
                              if (space <? openParen)%nat
                              then erase 0 (Some (space + 1)) s
                              else s
                          | None => s
                          end
                      | None => s
                      end).
    { intros s. destruct (find "(" s) as [o|]; [|reflexivity].
      destruct (find " " s) as [sp|]; [|reflexivity].
      destruct (sp <? o)%nat; [|reflexivity].
      apply checked_erase_in_range; lia. }
    rewrite H1. cbn [checked.bind].
    set (s := match find "(" raw with Some _ => _ | None => _ end).
    destruct (find "(" s) as [openParen|]; [|reflexivity].
    destruct (rfind "::" s (Some openParen)) as [classSep|] eqn:H.
    + apply rfind_le in H. unfold checked.replace.
      now destruct (Nat.leb_spec classSep (String.length s)); [|lia].
    + reflexivity.
Qed.

(* ================================================================== *)
(** ** What the results are made of *)
(* ================================================================== *)

Section Absence.

Variable ch : ascii.

Lemma contains_append (s t : string) :
  Spec.contains ch (s ++ t) = Spec.contains ch s || Spec.contains ch t.
Proof.
  induction s as [|a r IH]; [reflexivity|]. simpl.
  now rewrite IH, orb_assoc.
Qed.

Lemma contains_drop (n : nat) (s : string) :
  Spec.contains ch s = false -> Spec.contains ch (drop n s) = false.
Proof.
  revert s; induction n as [|n IH]; intros [|a r]; simpl; auto.
  intros H. apply orb_false_elim in H as [_ H]. now apply IH.
Qed.

Lemma contains_take (n : nat) (s : string) :
  Spec.contains ch s = false -> Spec.contains ch (take n s) = false.
Proof.
  revert s; induction n as [|n IH]; intros [|a r]; simpl; auto.
  intros H. apply orb_false_elim in H as [Ha H]. now rewrite Ha, IH.
Qed.

Lemma contains_truncate_at (s : string) :
  Spec.contains ch (Spec.truncate_at ch s) = false.
Proof.
  induction s as [|a r IH]; [reflexivity|]. simpl.
  destruct (Ascii.eqb a ch) eqn:E; [reflexivity|]. simpl. now rewrite E.
Qed.

Lemma truncate_at_absent (s : string) :
  Spec.contains ch s = false -> Spec.truncate_at ch s = s.
Proof.
  induction s as [|a r IH]; [reflexivity|]. simpl.
  intros H. apply orb_false_elim in H as [Ha H]. now rewrite Ha, IH.
Qed.

Lemma truncate_at_append (head rest : string) :
  Spec.contains ch head = false ->
  Spec.truncate_at ch (head ++ String ch rest) = head.
Proof.
  induction head as [|a r IH]; simpl.
  - now rewrite Ascii.eqb_refl.
  - intros H. apply orb_false_elim in H as [Ha H]. now rewrite Ha, IH.
Qed.

(** Without [ch] after its last occurrence, and without it at all when it
    has none. *)
Lemma last_occurrence_none_absent (s : string) :
  Spec.last_occurrence (String ch "") s = None -> Spec.contains ch s = false.
Proof.
  induction s as [|a r IH]; [reflexivity|]. simpl.
  destruct (Spec.last_occurrence (String ch "") r); [discriminate|].
  destruct (ascii_dec ch a) as [->|Hne].
  - now destruct r.
  - intros _. rewrite (IH eq_refl), orb_false_r.
    apply Ascii.eqb_neq. congruence.
Qed.

Lemma last_occurrence_rest_absent (s : string) (i : nat) :
  Spec.last_occurrence (String ch "") s = Some i ->
  Spec.contains ch (drop (S i) s) = false.
Proof.
  revert i; induction s as [|a r IH]; intros i H; [discriminate|].
  cbn [Spec.last_occurrence] in H.
  destruct (Spec.last_occurrence (String ch "") r) as [k|] eqn:Hr.
  - injection H as <-. now apply IH.
  - destruct (String.prefix (String ch "") (String a r)); [|discriminate].
    injection H as <-. now apply last_occurrence_none_absent.
Qed.

End Absence.

Lemma drop_drop (k j : nat) (s : string) : drop j (drop k s) = drop (k + j) s.
Proof.
  revert s; induction k as [|k IH]; intros s; [reflexivity|].
  destruct s as [|a r]; [now destruct j|]. apply IH.
Qed.

Lemma occurs_at_drop (str s : string) (k j : nat) :
  occurs_at str (drop k s) j = occurs_at str s (k + j).
Proof. unfold occurs_at. now rewrite drop_drop. Qed.

Lemma prefix_split (str u : string) :
  String.prefix str u = true -> u = str ++ drop (String.length str) u.
Proof.
  revert u; induction str as [|c t IH]; intros u H; [now destruct u|].
  destruct u as [|a r]; [discriminate|]. simpl in *.
  destruct (ascii_dec c a) as [->|]; [|discriminate].
  f_equal. now apply IH.
Qed.

(* ================================================================== *)
(** ** PathShortener: shape of the result *)
(* ================================================================== *)

(** [filterFileName] returns a suffix of its argument that holds no path
    separator; applying it again changes nothing. *)
Theorem filterFileName_suffix_without_separator :
  forall (windows : bool) (path : string),
    (exists pre : string, path = pre ++ filterFileName windows path)
    /\ Spec.contains (Spec.path_separator windows)
                     (filterFileName windows path) = false
    /\ filterFileName windows (filterFileName windows path)
       = filterFileName windows path.
Proof.
  intros windows path.
  assert (Hno : Spec.contains (Spec.path_separator windows)
                              (filterFileName windows path) = false).
  { unfold filterFileName, substr.
    rewrite SHORT_FILENAME_SPLIT_CHAR_is_char, rfind_npos.
    destruct (Spec.last_occurrence _ path) as [found|] eqn:H.
    - rewrite Nat.add_1_r. now apply last_occurrence_rest_absent.
    - now apply last_occurrence_none_absent. }
  split; [|split; [exact Hno | now apply filterFileName_unchanged]].
  unfold filterFileName, substr.
  destruct (rfind _ path npos) as [found|].
  - exists (take (found + 1) path). now rewrite take_drop.
  - now exists "".
Qed.

(* ================================================================== *)
(** ** SignatureParser: shape of the results *)
(* ================================================================== *)

Lemma methodName_is_tail (raw : string) :
  exists k : nat,
    Spec.methodName raw = drop k (Spec.truncate_at "(" raw)
    /\ (forall j : nat,
           occurs_at "::" (Spec.truncate_at "(" raw) (k + j) = false).
Proof.
  unfold Spec.methodName. set (t := Spec.truncate_at "(" raw).
  rewrite after_last_occurrence, after_first_find.
  destruct (Spec.last_occurrence "::" t) as [i|] eqn:Hl; cbn [option_map].
  - exists (i + 2). split; [reflexivity|].
    intros j. apply (last_occurrence_is_last _ _ _ _ Hl). lia.
  - pose proof (last_occurrence_none _ _ _ Hl) as Hnone.
    destruct (find " " t) as [sp|]; cbn [option_map].
    + exists (sp + 1). split; [reflexivity | intros j; apply Hnone].
    + exists 0. split; [reflexivity | intros j; apply Hnone].
Qed.

(** The method name is a piece of the signature that holds neither a
    ["("] nor a ["::"]. *)
Theorem getMethodName_shape :
  forall this : LocationInfo,
    Spec.contains "(" (getMethodName this) = false
    /\ (forall j : nat, occurs_at "::" (getMethodName this) j = false)
    /\ exists p q : string,
         c_str_chars (methodName this) = p ++ getMethodName this ++ q.
Proof.
  intros this. rewrite getMethodName_parses.
  set (raw := c_str_chars (methodName this)).
  destruct (methodName_is_tail raw) as (k & -> & Hlast).
  split; [apply contains_drop, contains_truncate_at|].
  split; [intros j; now rewrite occurs_at_drop|].
  exists (take k (Spec.truncate_at "(" raw)), (Spec.from_first "(" raw).
  now rewrite <- append_assoc, take_drop, truncate_from_first.
Qed.

Lemma className_is_piece (raw : string) :
  exists i k : nat,
    Spec.className raw = drop k (take i (Spec.truncate_at "(" raw))
    /\ Spec.contains " " (Spec.className raw) = false.
Proof.
  unfold Spec.className. set (t := Spec.truncate_at "(" raw).
  rewrite before_last_occurrence.
  destruct (Spec.last_occurrence "::" t) as [i|]; cbn [option_map].
  - rewrite after_last_occurrence.
    destruct (Spec.last_occurrence " " (take i t)) as [sp|] eqn:Hsp;
      cbn [option_map String.length].
    + exists i, (sp + 1). split; [reflexivity|].
      rewrite Nat.add_1_r. now apply last_occurrence_rest_absent.
    + exists i, 0. split; [reflexivity|].
      now apply last_occurrence_none_absent.
  - exists 0, 0. split; [now destruct t | reflexivity].
Qed.

(** The class name is a piece of the signature that holds neither a
    ["("] nor a space. *)
Theorem getClassName_shape :
  forall this : LocationInfo,
    Spec.contains "(" (getClassName this) = false
    /\ Spec.contains " " (getClassName this) = false
    /\ exists p q : string,
         c_str_chars (methodName this) = p ++ getClassName this ++ q.
Proof.
  intros this. rewrite getClassName_parses.
  set (raw := c_str_chars (methodName this)).
  destruct (className_is_piece raw) as (i & k & Heq & Hsp).
  split; [rewrite Heq; apply contains_drop, contains_take, contains_truncate_at|].
  split; [exact Hsp|].
  rewrite Heq. set (t := Spec.truncate_at "(" raw).
  exists (take k (take i t)), (drop i t ++ Spec.from_first "(" raw).
  rewrite <- !append_assoc, take_drop, take_drop.
  apply eq_sym, truncate_from_first.
Qed.

(** Whatever follows the first ["("] plays no part in either accessor:
    a ["::"] or a space inside the argument list changes nothing. *)
Theorem accessors_ignore_arguments :
  forall (head args : string) (line : Z) (file : c_str) (short : string),
    Spec.contains "(" head = false ->
    getMethodName (mkLocationInfo line file short (buffer (head ++ String "(" args)))
    = getMethodName (mkLocationInfo line file short (buffer head))
    /\ getClassName (mkLocationInfo line file short (buffer (head ++ String "(" args)))
       = getClassName (mkLocationInfo line file short (buffer head)).
Proof.
  intros head args line file short H.
  rewrite !getMethodName_parses, !getClassName_parses. cbn [methodName c_str_chars].
  unfold Spec.methodName, Spec.className.
  now rewrite truncate_at_append, truncate_at_absent.
Qed.

Lemma accessors_ignore_arguments_witness :
  getMethodName (mkLocationInfo 3 (buffer "a.cpp") "a.cpp"
                   (buffer ("void Foo::bar" ++ String "(" "std::string s, int n)")))
  = getMethodName (mkLocationInfo 3 (buffer "a.cpp") "a.cpp" (buffer "void Foo::bar"))
  /\ getClassName (mkLocationInfo 3 (buffer "a.cpp") "a.cpp"
                     (buffer ("void Foo::bar" ++ String "(" "std::string s, int n)")))
     = getClassName (mkLocationInfo 3 (buffer "a.cpp") "a.cpp" (buffer "void Foo::bar")).
Proof.
  apply (accessors_ignore_arguments "void Foo::bar" "std::string s, int n)"
           3 (buffer "a.cpp") "a.cpp").
  reflexivity.
Defined.

(** Class and method name fit together: when the text before the first
    ["("] holds a ["::"], that text ends with the class name, ["::"] and the
    method name; when it holds none, the class name is empty. *)
Theorem class_and_method_recompose :
  forall this : LocationInfo,
    (exists p : string,
        Spec.truncate_at "(" (c_str_chars (methodName this))
        = p ++ getClassName this ++ "::" ++ getMethodName this)
    \/ (getClassName this = ""
        /\ forall j : nat,
             occurs_at "::" (Spec.truncate_at "(" (c_str_chars (methodName this))) j
             = false).
Proof.
  intros this. rewrite getMethodName_parses, getClassName_parses.
  unfold Spec.methodName, Spec.className.
  set (t := Spec.truncate_at "(" _).
  rewrite before_last_occurrence, after_last_occurrence.
  destruct (Spec.last_occurrence "::" t) as [i|] eqn:Hl; cbn [option_map].
  - left.
    destruct (last_occurrence_is_last _ _ _ _ Hl) as [Hocc _].
    apply prefix_split in Hocc. cbn [String.length] in *.
    rewrite drop_drop in Hocc.
    assert (Ht : t = take i t ++ "::" ++ drop (i + 2) t)
      by (rewrite <- Hocc; symmetry; apply take_drop).
    rewrite after_last_occurrence.
    destruct (Spec.last_occurrence " " (take i t)) as [sp|]; cbn [option_map].
    + exists (take (sp + 1) (take i t)).
      rewrite <- append_assoc, take_drop. exact Ht.
    + now exists "".
  - right. split; [reflexivity|]. now apply last_occurrence_none.
Qed.

(* ================================================================== *)
(** ** Signatures of the expected shape *)
(* ================================================================== *)

Section Splitting.

Variable ch : ascii.

Lemma after_first_append (pre rest : string) :
  Spec.contains ch pre = false ->
  Spec.after_first ch (pre ++ String ch rest) = Some rest.
Proof.
  induction pre as [|a r IH]; simpl.
  - now rewrite Ascii.eqb_refl.
  - intros H. apply orb_false_elim in H as [Ha H]. now rewrite Ha, IH.
Qed.

Lemma from_first_append (pre rest : string) :
  Spec.contains ch pre = false ->
  Spec.from_first ch (pre ++ String ch rest) = String ch rest.
Proof.
  induction pre as [|a r IH]; simpl.
  - now rewrite Ascii.eqb_refl.
  - intros H. apply orb_false_elim in H as [Ha H]. now rewrite Ha, IH.
Qed.

Lemma contains_middle (pre rest : string) :
  Spec.contains ch (pre ++ String ch rest) = true.
Proof.
  rewrite contains_append. simpl. rewrite Ascii.eqb_refl.
  now rewrite orb_true_r.
Qed.

(** A string that lacks [ch] holds no occurrence of a string starting
    with [ch]. *)
Lemma last_occurrence_lacking (t s : string) :
  Spec.contains ch s = false ->
  Spec.last_occurrence (String ch t) s = None.
Proof.
  induction s as [|a r IH]; [reflexivity|]. simpl.
  intros H. apply orb_false_elim in H as [Ha H]. rewrite (IH H).
  destruct (ascii_dec ch a) as [->|]; [|reflexivity].
  now rewrite Ascii.eqb_refl in Ha.
Qed.

End Splitting.

Lemma take_append_length (s t : string) : take (String.length s) (s ++ t) = s.
Proof. induction s as [|a r IH]; simpl; [now destruct t | now rewrite IH]. Qed.

(** The last ["::"] of [pre ++ "::" ++ meth] is the one written out, when
    [meth] holds no colon. *)
Lemma last_occurrence_qualifier (pre meth : string) :
  Spec.contains ":" meth = false ->
  Spec.last_occurrence "::" (pre ++ "::" ++ meth) = Some (String.length pre).
Proof.
  intros H. induction pre as [|a r IH].
  - cbn [String.append String.length Spec.last_occurrence].
    rewrite (last_occurrence_lacking ":" ":" meth H).
    assert (Hp : String.prefix "::" (String ":" meth) = false).
    { destruct meth as [|b m]; [reflexivity|]. cbn [Spec.contains] in H.
      apply orb_false_elim in H as [Hb _]. cbn [String.prefix].
      destruct (ascii_dec ":" ":"); [|reflexivity].
      destruct (ascii_dec ":" b) as [<-|]; [discriminate|reflexivity]. }
    rewrite Hp. cbn [String.prefix].
    destruct (ascii_dec ":" ":"); [now destruct meth | congruence].
  - cbn [String.append String.length Spec.last_occurrence] in *.
    now rewrite IH.
Qed.

Section Qualified.

Variables cls meth args : string.
Hypothesis cls_no_space : Spec.contains " " cls = false.
Hypothesis cls_no_paren : Spec.contains "(" cls = false.
Hypothesis meth_no_space : Spec.contains " " meth = false.
Hypothesis meth_no_paren : Spec.contains "(" meth = false.
Hypothesis meth_no_colon : Spec.contains ":" meth = false.

Lemma qualified_no_paren (pre : string) :
  Spec.contains "(" pre = false ->
  Spec.contains "(" (pre ++ "::" ++ meth) = false.
Proof.
  intros H. rewrite contains_append, H. simpl. exact meth_no_paren.
Qed.

Lemma qualified_methodName (pre : string) :
  Spec.contains "(" pre = false ->
  Spec.methodName ((pre ++ "::" ++ meth) ++ String "(" args) = meth.
Proof.
  intros H. unfold Spec.methodName.
  rewrite truncate_at_append by now apply qualified_no_paren.
  rewrite after_last_occurrence, last_occurrence_qualifier by assumption.
  cbn [option_map String.length].
  replace (String.length pre + 2) with (String.length (pre ++ "::"))
    by (rewrite length_append; reflexivity).
  replace (pre ++ "::" ++ meth) with ((pre ++ "::") ++ meth)
    by (now rewrite append_assoc).
  apply drop_append_length.
Qed.

Lemma qualified_before_last (pre : string) :
  Spec.contains "(" pre = false ->
  Spec.before_last "::"
    (Spec.truncate_at "(" ((pre ++ "::" ++ meth) ++ String "(" args))
  = Some pre.
Proof.
  intros H.
  rewrite truncate_at_append by now apply qualified_no_paren.
  rewrite before_last_occurrence, last_occurrence_qualifier by assumption.
  cbn [option_map]. now rewrite take_append_length.
Qed.

Lemma qualified_dot_qualifier :
  Spec.dot_qualifier ((cls ++ "::" ++ meth) ++ String "(" args)
  = cls ++ "." ++ meth ++ String "(" args.
Proof.
  unfold Spec.dot_qualifier.
  rewrite contains_middle.
  rewrite truncate_at_append, from_first_append
    by now apply qualified_no_paren.
  rewrite replace_last_occurrence, last_occurrence_qualifier by assumption.
  cbn [option_map String.length].
  rewrite take_append_length.
  replace (String.length cls + 2) with (String.length (cls ++ "::"))
    by (rewrite length_append; reflexivity).
  replace (cls ++ "::" ++ meth) with ((cls ++ "::") ++ meth)
    by (now rewrite append_assoc).
  rewrite drop_append_length. now rewrite !append_assoc.
Qed.

End Qualified.

(** For a signature [cls::meth(args)] whose class path and method name hold
    no space and no ["("], and whose method name holds no colon, the class
    name is [cls] (nested qualifiers included), the method name is [meth],
    and the payload is [cls.meth(args)] followed by the location. *)
Theorem qualified_signature :
  forall (cls meth args : string) (line : Z) (file : c_str) (short : string),
    Spec.contains " " cls = false ->
    Spec.contains "(" cls = false ->
    Spec.contains " " meth = false ->
    Spec.contains "(" meth = false ->
    Spec.contains ":" meth = false ->
    let this := mkLocationInfo line file short
                  (buffer ((cls ++ "::" ++ meth) ++ String "(" args)) in
    getClassName this = cls
    /\ getMethodName this = meth
    /\ write_fullInfo this
       = (cls ++ "." ++ meth ++ String "(" args)
           ++ Spec.location_suffix (c_str_chars file) line.
Proof.
  intros cls meth args line file short Hcs Hcp Hms Hmp Hmc this.
  rewrite getClassName_parses, getMethodName_parses, write_fullInfo_builds.
  subst this. cbn [methodName fileName lineNumber c_str_chars].
  split; [|split].
  - unfold Spec.className. rewrite qualified_before_last by assumption.
    rewrite after_last_occurrence.
    now rewrite (last_occurrence_lacking " " "" cls Hcs).
  - now apply qualified_methodName.
  - unfold Spec.fullInfo. f_equal.
    unfold Spec.drop_return_type.
    rewrite truncate_at_append by now apply qualified_no_paren.
    assert (Hsp : Spec.contains " " (cls ++ "::" ++ meth) = false)
      by (rewrite contains_append, Hcs; simpl; exact Hms).
    rewrite Hsp, andb_false_r. now apply qualified_dot_qualifier.
Qed.

Lemma qualified_signature_witness :
  getClassName (mkLocationInfo 12 (buffer "w.cpp") "w.cpp"
                  (buffer (("ns::Widget" ++ "::" ++ "draw") ++ String "(" "int, char)")))
  = "ns::Widget"
  /\ getMethodName (mkLocationInfo 12 (buffer "w.cpp") "w.cpp"
                      (buffer (("ns::Widget" ++ "::" ++ "draw") ++ String "(" "int, char)")))
     = "draw"
  /\ write_fullInfo (mkLocationInfo 12 (buffer "w.cpp") "w.cpp"
                       (buffer (("ns::Widget" ++ "::" ++ "draw") ++ String "(" "int, char)")))
     = ("ns::Widget" ++ "." ++ "draw" ++ String "(" "int, char)")
         ++ Spec.location_suffix "w.cpp" 12.
Proof.
  apply (qualified_signature "ns::Widget" "draw" "int, char)" 12
           (buffer "w.cpp") "w.cpp"); reflexivity.
Defined.

(** The same with a leading return-type token [ret] that holds no space
    and no ["("]: it is dropped by all three. *)
Theorem qualified_signature_with_return_type :
  forall (ret cls meth args : string) (line : Z) (file : c_str) (short : string),
    Spec.contains " " ret = false ->
    Spec.contains "(" ret = false ->
    Spec.contains " " cls = false ->
    Spec.contains "(" cls = false ->
    Spec.contains " " meth = false ->
    Spec.contains "(" meth = false ->
    Spec.contains ":" meth = false ->
    let this := mkLocationInfo line file short
                  (buffer (ret ++ String " "
                             ((cls ++ "::" ++ meth) ++ String "(" args))) in
    getClassName this = cls
    /\ getMethodName this = meth
    /\ write_fullInfo this
       = (cls ++ "." ++ meth ++ String "(" args)
           ++ Spec.location_suffix (c_str_chars file) line.
Proof.
  intros ret cls meth args line file short Hrs Hrp Hcs Hcp Hms Hmp Hmc this.
  rewrite getClassName_parses, getMethodName_parses, write_fullInfo_builds.
  subst this. cbn [methodName fileName lineNumber c_str_chars].
  assert (Hpre : Spec.contains "(" (ret ++ String " " cls) = false)
    by (rewrite contains_append, Hrp; simpl; exact Hcp).
  assert (Hraw : ret ++ String " " ((cls ++ "::" ++ meth) ++ String "(" args)
                 = ((ret ++ String " " cls) ++ "::" ++ meth) ++ String "(" args)
    by (now rewrite !append_assoc).
  split; [|split].
  - rewrite Hraw. unfold Spec.className.
    rewrite qualified_before_last by assumption.
    rewrite after_last_occurrence.
    rewrite (last_occurrence_split " " ret cls Hcs). cbn [option_map String.length].
    replace (String.length ret + 1) with (String.length (ret ++ " "))
      by (rewrite length_append; reflexivity).
    replace (ret ++ String " " cls) with ((ret ++ " ") ++ cls)
      by (now rewrite append_assoc).
    apply drop_append_length.
  - rewrite Hraw. now apply qualified_methodName.
  - unfold Spec.fullInfo. f_equal.
    unfold Spec.drop_return_type.
    rewrite after_first_append by assumption.
    rewrite Hraw at 1 2.
    rewrite contains_middle.
    rewrite truncate_at_append by now apply qualified_no_paren.
    assert (Hsp : Spec.contains " " ((ret ++ String " " cls) ++ "::" ++ meth)
                  = true)
      by (rewrite append_assoc; exact (contains_middle " " ret _)).
    rewrite Hsp. cbn [andb].
    now apply qualified_dot_qualifier.
Qed.

Lemma qualified_signature_with_return_type_witness :
  getClassName (mkLocationInfo 12 (buffer "w.cpp") "w.cpp"
                  (buffer ("void" ++ String " "
                     (("ns::Widget" ++ "::" ++ "draw") ++ String "(" "int, char)"))))
  = "ns::Widget"
  /\ getMethodName (mkLocationInfo 12 (buffer "w.cpp") "w.cpp"
                  (buffer ("void" ++ String " "
                     (("ns::Widget" ++ "::" ++ "draw") ++ String "(" "int, char)"))))
     = "draw"
  /\ write_fullInfo (mkLocationInfo 12 (buffer "w.cpp") "w.cpp"
                  (buffer ("void" ++ String " "
                     (("ns::Widget" ++ "::" ++ "draw") ++ String "(" "int, char)"))))
     = ("ns::Widget" ++ "." ++ "draw" ++ String "(" "int, char)")
         ++ Spec.location_suffix "w.cpp" 12.
Proof.
  apply (qualified_signature_with_return_type "void" "ns::Widget" "draw"
           "int, char)" 12 (buffer "w.cpp") "w.cpp"); reflexivity.
Defined.

(* ================================================================== *)
(** ** LocationDescriptor: how the operations compose *)
(* ================================================================== *)

(** [clear] does what assigning the unavailable descriptor does, and
    clearing twice is clearing once. *)
Theorem clear_is_assign_unavailable :
  forall this : LocationInfo,
    clear this = assign this getLocationUnavailable
    /\ clear (clear this) = clear this.
Proof. intros this. split; reflexivity. Qed.

(** Every constructor leaves the short file name equal to the shortened
    file name.  An assignment keeps that exactly when the target's short
    name is the shortened file name of the source; [clear] keeps it exactly
    when the short name is already ["?"]. *)
Theorem short_name_invariant :
  forall windows : bool,
    (forall (fileName1 methodName1 : c_str) (lineNumber1 : Z),
        short_name_agrees windows
          (LocationInfo_ctor windows fileName1 methodName1 lineNumber1))
    /\ short_name_agrees windows LocationInfo_default
    /\ (forall src : LocationInfo,
           short_name_agrees windows src ->
           short_name_agrees windows (LocationInfo_copy src))
    /\ (forall this src : LocationInfo,
           short_name_agrees windows (assign this src) <->
           shortFileName this
           = filterFileName windows (c_str_chars (fileName src)))
    /\ (forall this : LocationInfo,
           short_name_agrees windows (clear this) <-> shortFileName this = "?").
Proof.
  intros windows. unfold short_name_agrees.
  split; [reflexivity|].
  split; [now destruct windows|].
  split; [intros src H; exact H|].
  split; [intros this src; reflexivity|].
  intros this. cbn. now destruct windows.
Qed.

Lemma short_name_invariant_witness :
  short_name_agrees false
    (LocationInfo_copy (LocationInfo_ctor false (buffer "/a/b/c.cpp") (buffer "f()") 3))
  /\ short_name_agrees false
       (assign (LocationInfo_ctor false (buffer "/a/b/c.cpp") (buffer "f()") 3)
               (LocationInfo_ctor false (buffer "/x/c.cpp") (buffer "g()") 4))
  /\ short_name_agrees false (clear LocationInfo_default).
Proof.
  split.
  { apply (proj1 (proj2 (proj2 (short_name_invariant false)))). reflexivity. }
  split.
  { apply (proj1 (proj2 (proj2 (proj2 (short_name_invariant false))))).
    reflexivity. }
  apply (proj2 (proj2 (proj2 (proj2 (short_name_invariant false))))).
  reflexivity.
Defined.

(* ================================================================== *)
(** ** CompatSerializer: further behaviour of [write] *)
(* ================================================================== *)

(** A cleared descriptor is written as the null marker, whatever it held
    and whatever implements the stream. *)
Theorem write_after_clear :
  forall (OS : Type) (stream : ObjectOutputStream OS)
         (this : LocationInfo) (os : OS),
    write (clear this) os = writeNull os.
Proof. intros OS stream this os. reflexivity. Qed.

(** [write] never reads the short file name: descriptors that agree on
    line, file name and method name are written alike.  So an assigned
    descriptor is written as its source, and a copy as its original. *)
Theorem write_ignores_short_name :
  forall (OS : Type) (stream : ObjectOutputStream OS) (os : OS),
    (forall this other : LocationInfo,
        lineNumber this = lineNumber other ->
        fileName this = fileName other ->
        methodName this = methodName other ->
        write this os = write other os)
    /\ (forall this src : LocationInfo,
           write (assign this src) os = write src os)
    /\ (forall src : LocationInfo,
           write (LocationInfo_copy src) os = write src os).
Proof.
  intros OS stream os.
  assert (H : forall this other : LocationInfo,
             lineNumber this = lineNumber other ->
             fileName this = fileName other ->
             methodName this = methodName other ->
             write this os = write other os).
  { intros this other Hl Hf Hm.
    unfold write, write_guard, write_fullInfo. now rewrite Hl, Hf, Hm. }
  split; [exact H|].
  split; [intros this src | intros src]; now apply H.
Qed.

Lemma write_ignores_short_name_witness :
  write (mkLocationInfo 5 (buffer "/a/b.cpp") "b.cpp" (buffer "f()")) []
  = write (mkLocationInfo 5 (buffer "/a/b.cpp") "stale.cpp" (buffer "f()")) [].
Proof.
  apply (proj1 (write_ignores_short_name (list call) recorder [])
           (mkLocationInfo 5 (buffer "/a/b.cpp") "b.cpp" (buffer "f()"))
           (mkLocationInfo 5 (buffer "/a/b.cpp") "stale.cpp" (buffer "f()")));
    reflexivity.
Defined.

(** A signature without ["("] goes into the payload unchanged: no token
    is dropped, no ["::"] replaced and no ["."] inserted. *)
Theorem write_without_paren :
  forall this : LocationInfo,
    write_guard this = false ->
    Spec.contains "(" (c_str_chars (methodName this)) = false ->
    write this []
    = [ call_writeProlog "org.apache.log4j.spi.LocationInfo" 2 prolog 81;
        call_writeUTFString
          (c_str_chars (methodName this) ++ "("
             ++ c_str_chars (fileName this) ++ ":"
             ++ itoa (lineNumber this) ++ ")") ].
Proof.
  intros this Hguard Hparen. unfold write. rewrite Hguard.
  rewrite write_fullInfo_builds.
  unfold Spec.fullInfo, Spec.drop_return_type, Spec.dot_qualifier.
  rewrite Hparen. cbn [andb]. rewrite Hparen. reflexivity.
Qed.

Lemma write_without_paren_witness :
  write (mkLocationInfo 9 (buffer "m.cpp") "m.cpp" (buffer "void ns::run")) []
  = [ call_writeProlog "org.apache.log4j.spi.LocationInfo" 2 prolog 81;
      call_writeUTFString "void ns::run(m.cpp:9)" ].
Proof.
  apply (write_without_paren
           (mkLocationInfo 9 (buffer "m.cpp") "m.cpp" (buffer "void ns::run")));
    reflexivity.
Defined.

Lemma contains_from_first (ch : ascii) (s : string) :
  Spec.contains ch s = true ->
  exists rest : string, Spec.from_first ch s = String ch rest.
Proof.
  induction s as [|a r IH]; [discriminate|]. simpl.
  destruct (Ascii.eqb_spec a ch) as [->|]; [now exists r | exact IH].
Qed.

Lemma from_first_contains (ch : ascii) (s rest : string) :
  Spec.from_first ch s = String ch rest -> Spec.contains ch s = true.
Proof.
  induction s as [|a r IH]; [discriminate|]. simpl.
  destruct (Ascii.eqb a ch); [reflexivity | exact IH].
Qed.

(** When the signature has a ["("], the payload has a ["."] in front of
    its first ["("]: the place where a reader of the payload separates
    class from method. *)
Theorem write_dot_before_paren :
  forall this : LocationInfo,
    Spec.contains "(" (c_str_chars (methodName this)) = true ->
    Spec.contains "." (Spec.truncate_at "(" (write_fullInfo this)) = true.
Proof.
  intros this Hparen. rewrite write_fullInfo_builds.
  set (raw := c_str_chars (methodName this)) in *.
  unfold Spec.fullInfo.
  set (s := Spec.drop_return_type raw).
  set (suffix := Spec.location_suffix _ _).
  destruct (contains_from_first _ _ Hparen) as [rest Hrest].
  rewrite <- drop_return_type_keeps in Hrest. fold s in Hrest.
  pose proof (from_first_contains _ _ _ Hrest) as Hs.
  unfold Spec.dot_qualifier. rewrite Hs.
  rewrite replace_last_occurrence, Hrest.
  set (head := Spec.truncate_at "(" s).
  assert (Hhead : Spec.contains "(" head = false)
    by apply contains_truncate_at.
  destruct (Spec.last_occurrence "::" head) as [i|]; cbn [option_map].
  - set (q := take i head ++ "." ++ drop (i + String.length "::") head).
    assert (Hq : Spec.contains "(" q = false).
    { unfold q. rewrite !contains_append.
      rewrite (contains_take _ _ _ Hhead), (contains_drop _ _ _ Hhead).
      reflexivity. }
    rewrite append_assoc. cbn [String.append].
    rewrite truncate_at_append by exact Hq.
    unfold q. rewrite !contains_append. cbn. now rewrite orb_true_r.
  - reflexivity.
Qed.

Lemma write_dot_before_paren_witness :
  Spec.contains "."
    (Spec.truncate_at "("
       (write_fullInfo (mkLocationInfo 1 (buffer "a.cpp") "a.cpp" (buffer "main()"))))
  = true.
Proof.
  apply (write_dot_before_paren
           (mkLocationInfo 1 (buffer "a.cpp") "a.cpp" (buffer "main()"))).
  reflexivity.
Defined.

Lemma truncate_at_append_absent (ch : ascii) (pre t : string) :
  Spec.contains ch pre = false ->
  Spec.truncate_at ch (pre ++ t) = pre ++ Spec.truncate_at ch t.
Proof.
  induction pre as [|a r IH]; [reflexivity|]. simpl.
  intros H. apply orb_false_elim in H as [Ha H]. now rewrite Ha, IH.
Qed.

(** A leading return-type token changes nothing in the payload: with the
    token and a space in front of a signature that has a ["("] and no space
    before it, [write] builds the text it builds for the signature alone. *)
Theorem write_drops_return_type :
  forall (ret rest : string) (line : Z) (file : c_str) (short : string),
    Spec.contains " " ret = false ->
    Spec.contains "(" ret = false ->
    Spec.contains "(" rest = true ->
    Spec.contains " " (Spec.truncate_at "(" rest) = false ->
    write_fullInfo (mkLocationInfo line file short (buffer (ret ++ String " " rest)))
    = write_fullInfo (mkLocationInfo line file short (buffer rest)).
Proof.
  intros ret rest line file short Hrs Hrp Hparen Hhead.
  rewrite !write_fullInfo_builds. cbn [methodName fileName lineNumber c_str_chars].
  unfold Spec.fullInfo. f_equal. f_equal.
  unfold Spec.drop_return_type.
  rewrite Hparen, Hhead. cbn [andb].
  rewrite after_first_append by exact Hrs.
  rewrite truncate_at_append_absent by exact Hrp.
  change (Spec.truncate_at "(" (String " " rest))
    with (String " " (Spec.truncate_at "(" rest)).
  rewrite contains_middle, contains_append.
  cbn [Spec.contains]. rewrite Hparen, !orb_true_r. reflexivity.
Qed.

Lemma write_drops_return_type_witness :
  write_fullInfo (mkLocationInfo 2 (buffer "a.cpp") "a.cpp"
                    (buffer ("std::string" ++ String " " "Foo::name() const")))
  = write_fullInfo (mkLocationInfo 2 (buffer "a.cpp") "a.cpp"
                      (buffer "Foo::name() const")).
Proof.
  apply (write_drops_return_type "std::string" "Foo::name() const" 2
           (buffer "a.cpp") "a.cpp"); reflexivity.
Defined.

Lemma after_first_absent (ch : ascii) (s : string) :
  Spec.contains ch s = false -> Spec.after_first ch s = None.
Proof.
  induction s as [|a r IH]; [reflexivity|]. simpl.
  intros H. apply orb_false_elim in H as [Ha H]. now rewrite Ha, IH.
Qed.

(** A bare name, with no ["("], no space and no colon, is its own method
    name and has no class name. *)
Theorem bare_name :
  forall (name : string) (line : Z) (file : c_str) (short : string),
    Spec.contains "(" name = false ->
    Spec.contains " " name = false ->
    Spec.contains ":" name = false ->
    getMethodName (mkLocationInfo line file short (buffer name)) = name
    /\ getClassName (mkLocationInfo line file short (buffer name)) = "".
Proof.
  intros name line file short Hp Hs Hc.
  rewrite getMethodName_parses, getClassName_parses. cbn [methodName c_str_chars].
  unfold Spec.methodName, Spec.className.
  rewrite truncate_at_absent by exact Hp.
  rewrite after_last_occurrence, before_last_occurrence.
  rewrite (last_occurrence_lacking ":" ":" name Hc). cbn [option_map].
  now rewrite after_first_absent.
Qed.

Lemma bare_name_witness :
  getMethodName (mkLocationInfo 1 (buffer "a.cpp") "a.cpp" (buffer "operator<<")) = "operator<<"
  /\ getClassName (mkLocationInfo 1 (buffer "a.cpp") "a.cpp" (buffer "operator<<")) = "".
Proof.
  apply (bare_name "operator<<" 1 (buffer "a.cpp") "a.cpp"); reflexivity.
Defined.

